(** * Fornaxian/log: a levelled logging facade

    A shallow embedding of [log.go] and the properties of its severity
    gate, its line formatter and its [io.Writer] adapter.

    The package keeps three process-wide variables ([logLevel],
    [defaultLevel], [Colours]) and talks to two collaborators of the Go
    standard library: the [*log.Logger] built by [init] on [os.Stdout]
    and [debug.PrintStack].  The embedding threads the three variables
    through a small state monad and records every call made on the two
    collaborators, in order, as a trace of events. *)

From Stdlib Require Import ZArith List Bool Lia.
From Stdlib Require Import Strings.String Strings.Ascii Strings.Byte.
From Stdlib Require Import Numbers.DecimalString.
Import ListNotations.

Open Scope string_scope.
Open Scope Z_scope.

(** ** Log levels (log.go, the [const] block) *)

Definition LevelTrace : Z := 5.
Definition LevelDebug : Z := 4.
Definition LevelInfo : Z := 3.
Definition LevelWarning : Z := 2.
Definition LevelError : Z := 1.
Definition LevelNone : Z := 0.

(** ** Go strings

    A Go string is a sequence of bytes; [len] counts bytes and [s[i:]]
    slices at byte offsets.  [string] of the Standard Library is a
    sequence of 8-bit [ascii], which is the same thing. *)

Definition len (s : string) : nat := String.length s.

(** [s[i:]].  Go panics when [i > len(s)]; the only slice of the package
    is taken at [len(fn) - cutoff], which never exceeds [len(fn)]. *)
Fixpoint slice_from (i : nat) (s : string) : string :=
  match i, s with
  | O, _ => s
  | S _, EmptyString => EmptyString
  | S i', String _ s' => slice_from i' s'
  end.

(** [strings.Contains(s, sub)], on top of [String.index]. *)
Definition contains (s sub : string) : bool :=
  match String.index 0 sub s with
  | Some _ => true
  | None => false
  end.

(** The three bytes of U+2026 HORIZONTAL ELLIPSIS in UTF-8, the literal
    that [print] puts in front of the file path. *)
Definition ellipsis : string :=
  String "226" (String "128" (String "166" EmptyString)).

(** The escape byte of the ANSI sequences, [\x1b]. *)
Definition ESC : string := String "027" EmptyString.

(** ** unicode/utf8: counting runes

    [fmt] pads a [%30s] operand by its number of runes, so the count is
    part of the layout.  [RuneCountInString] advances by one byte over an
    ASCII byte or an invalid sequence and by the encoded size over a
    well-formed one. *)
Module Utf8.

(** One entry of the table [first]: [None] for the bytes that are a
    rune on their own (ASCII) or never start one; otherwise the size
    of the sequence and the range accepted for its second byte. *)
Definition first (c : ascii) : option (nat * (N * N)) :=
  let n := N_of_ascii c in
  if (n <? 194)%N then None                         (* as, xx *)
  else if (n <? 224)%N then Some (2%nat, (128, 191)%N)   (* s1 *)
  else if (n =? 224)%N then Some (3%nat, (160, 191)%N)   (* s2 *)
  else if (n <? 237)%N then Some (3%nat, (128, 191)%N)   (* s3 *)
  else if (n =? 237)%N then Some (3%nat, (128, 159)%N)   (* s4 *)
  else if (n <? 240)%N then Some (3%nat, (128, 191)%N)   (* s3 *)
  else if (n =? 240)%N then Some (4%nat, (144, 191)%N)   (* s5 *)
  else if (n <? 244)%N then Some (4%nat, (128, 191)%N)   (* s6 *)
  else if (n =? 244)%N then Some (4%nat, (128, 143)%N)   (* s7 *)
  else None.                                        (* xx *)

(** [c < lo || hi < c] *)
Definition outside (c : ascii) (lo hi : N) : bool :=
  let n := N_of_ascii c in ((n <? lo) || (hi <? n))%N.

(** Continuation bytes: [locb = 0x80], [hicb = 0xBF]. *)
Definition locb : N := 128.
Definition hicb : N := 191.

Fixpoint RuneCountInString (s : string) : nat :=
  match s with
  | EmptyString => O
  | String c s1 =>
    S match first c with
      | None => RuneCountInString s1
      | Some (size, (lo, hi)) =>
        if (len s <? size)%nat then RuneCountInString s1
        else
          match s1 with
          | EmptyString => O
          | String c1 s2 =>
            if outside c1 lo hi then RuneCountInString s1
            else if (size =? 2)%nat then RuneCountInString s2
            else
              match s2 with
              | EmptyString => O
              | String c2 s3 =>
                if outside c2 locb hicb then RuneCountInString s1
                else if (size =? 3)%nat then RuneCountInString s3
                else
                  match s3 with
                  | EmptyString => O
                  | String c3 s4 =>
                    if outside c3 locb hicb then RuneCountInString s1
                    else RuneCountInString s4
                  end
              end
          end
      end
  end.

End Utf8.

(** ** fmt: the verbs of the layout string

    [print] formats with the constant layout ["[%s] %30s:%-3d %s"] and
    operands of type [string], [string], [int], [string].  The three
    verbs that occur are embedded as Go's [fmt] evaluates them. *)
Module Fmt.

(** [writePadding(n)]: [n] blanks, nothing when [n <= 0]. *)
Fixpoint writePadding (n : nat) : string :=
  match n with
  | O => EmptyString
  | S n' => String " " (writePadding n')
  end.

(** [padString]: the operand, padded with blanks to [wid] runes, on the
    left unless the [-] flag is set.  An absent or zero width pads
    nothing. *)
Definition padString (wid : nat) (minus : bool) (s : string) : string :=
  let width := (wid - Utf8.RuneCountInString s)%nat in
  if minus then s ++ writePadding width else writePadding width ++ s.

(** [%s] on a string operand. *)
Definition verb_s (s : string) : string := padString 0 false s.

(** [%30s] on a string operand. *)
Definition verb_30s (s : string) : string := padString 30 false s.

(** The decimal digits of an [int], with a leading [-] below zero. *)
Definition itoa (n : Z) : string := NilZero.string_of_int (Z.to_int n).

(** [%-3d] on an [int] operand: its digits are ASCII, one rune each. *)
Definition verb_minus3d (n : Z) : string := padString 3 true (itoa n).

(** [fmt.Sprintf("[%s] %30s:%-3d %s", lvl, path, line, msgFmt)] *)
Definition Sprintf_layout (lvl path : string) (line : Z) (msgFmt : string)
  : string :=
  "[" ++ verb_s lvl ++ "] " ++ verb_30s path ++ ":" ++ verb_minus3d line
      ++ " " ++ verb_s msgFmt.

End Fmt.

(** ** Process-wide state

    [logLevel] and [defaultLevel] are Go [int]s that are only compared and
    assigned, never computed with; [Z] without wrap-around represents
    them.  [Colours] is the exported flag. *)
Record state : Type := mkState {
  logLevel : Z;
  defaultLevel : Z;
  Colours : bool
}.

(** The values given by the [var] declarations. *)
Definition initial : state :=
  {| logLevel := LevelDebug; defaultLevel := LevelDebug; Colours := false |}.

(** An operand passed as [interface{}]. *)
Inductive any : Type :=
| AnyInt (n : Z)
| AnyString (s : string)
| AnyBool (b : bool).

(** What [runtime.Caller] reports for a frame: file and line.  A failed
    lookup reports the empty file and line 0. *)
Record frame : Type := mkFrame {
  file : string;
  line : Z
}.

(** The calls the package makes on its collaborators. *)
Inductive event : Type :=
| Println (msg : string)                   (* logger.Println(msg) *)
| Printf (format : string) (v : list any)  (* logger.Printf(msg, v...) *)
| PrintStack.                              (* debug.PrintStack() *)

(** The two standard streams of the process. *)
Inductive stream : Type := Stdout | Stderr.

(** Where each call writes: [logger] is [log.New(os.Stdout, "", log.LUTC)];
    [debug.PrintStack] "prints to standard error the stack trace returned
    by runtime.Stack". *)
Definition stream_of (e : event) : stream :=
  match e with
  | Println _ | Printf _ _ => Stdout
  | PrintStack => Stderr
  end.

(** ** The monad of the package: state and an output trace *)

Definition Go (A : Type) : Type := state -> A * state * list event.

Definition ret {A} (a : A) : Go A := fun st => (a, st, []).

Definition bind {A B} (m : Go A) (k : A -> Go B) : Go B :=
  fun st =>
    let '(a, st1, out1) := m st in
    let '(b, st2, out2) := k a st1 in
    (b, st2, (out1 ++ out2)%list).

Definition get : Go state := fun st => (st, st, []).
Definition put (st' : state) : Go unit := fun _ => (tt, st', []).
Definition emit (e : event) : Go unit := fun st => (tt, st, [e]).

Notation "x <- m ;; k" := (bind m (fun x => k))
  (at level 61, m at next level, right associativity).
Notation "m ;; k" := (bind m (fun _ => k))
  (at level 61, right associativity).

Definition result {A} (r : A * state * list event) : A := fst (fst r).
Definition final {A} (r : A * state * list event) : state := snd (fst r).
Definition output {A} (r : A * state * list event) : list event := snd r.

(** ** print (log.go, lines 146-177)

    [caller] is what [runtime.Caller(2)] finds: the frame that called the
    entry point which called [print]. *)
Definition print (caller : frame) (colour lvl msgFmt : string) (v : list any)
  : Go unit :=
  st <- get ;;
  let fn := file caller in
  let cutoff := if (len fn <? 30)%nat then len fn else 30%nat in
  let lvl := if Colours st
             then ESC ++ "[1m" ++ ESC ++ "[" ++ colour ++ "m" ++ lvl
                      ++ ESC ++ "[0m"
             else lvl in
  let msg := Fmt.Sprintf_layout
               lvl
               (ellipsis ++ slice_from (len fn - cutoff) fn)
               (line caller)
               msgFmt in
  if (List.length v =? 0)%nat
  then emit (Println msg)
  else emit (Printf msg v).

(** ** The entry points (log.go, lines 83-121) *)

Definition Trace (caller : frame) (msgFmt : string) (v : list any) : Go unit :=
  st <- get ;;
  if logLevel st <? LevelTrace then ret tt
  else print caller "95" "TRC" msgFmt v.

Definition Debug (caller : frame) (msgFmt : string) (v : list any) : Go unit :=
  st <- get ;;
  if logLevel st <? LevelDebug then ret tt
  else print caller "96" "DBG" msgFmt v.

Definition Info (caller : frame) (msgFmt : string) (v : list any) : Go unit :=
  st <- get ;;
  if logLevel st <? LevelInfo then ret tt
  else print caller "92" "INF" msgFmt v.

Definition Warn (caller : frame) (msgFmt : string) (v : list any) : Go unit :=
  st <- get ;;
  if logLevel st <? LevelWarning then ret tt
  else print caller "93" "WRN" msgFmt v.

Definition Error (caller : frame) (msgFmt : string) (v : list any) : Go unit :=
  st <- get ;;
  if logLevel st <? LevelError then ret tt
  else (print caller "91" "ERR" msgFmt v ;; emit PrintStack).

(** ** The five severities and their entry points *)

Inductive severity : Type :=
| SevTrace | SevDebug | SevInfo | SevWarning | SevError.

Definition level_of (s : severity) : Z :=
  match s with
  | SevTrace => LevelTrace
  | SevDebug => LevelDebug
  | SevInfo => LevelInfo
  | SevWarning => LevelWarning
  | SevError => LevelError
  end.

(** The tag and the colour code each entry point hands to [print]. *)
Definition tag_of (s : severity) : string :=
  match s with
  | SevTrace => "TRC"
  | SevDebug => "DBG"
  | SevInfo => "INF"
  | SevWarning => "WRN"
  | SevError => "ERR"
  end.

Definition colour_of (s : severity) : string :=
  match s with
  | SevTrace => "95"
  | SevDebug => "96"
  | SevInfo => "92"
  | SevWarning => "93"
  | SevError => "91"
  end.

Definition entry (s : severity)
  : frame -> string -> list any -> Go unit :=
  match s with
  | SevTrace => Trace
  | SevDebug => Debug
  | SevInfo => Info
  | SevWarning => Warn
  | SevError => Error
  end.

(** The Go [error] interface; [None] is [nil]. *)
Inductive error : Type := errorString (s : string).

(** ** The setters and the adapter

    These functions call [Error], [Debug], [Info] and [Warn] themselves,
    so the frame that [runtime.Caller(2)] finds is inside [log.go]: the
    file is the path under which the package was compiled, [srcfile], and
    the line is that of the call. *)
Section Package.

Variable srcfile : string.

(** log.go, lines 60-66 *)
Definition SetLogLevel (level : Z) : Go unit :=
  if (level <? LevelNone) || (level >? LevelTrace)
  then Error (mkFrame srcfile 62) "Invalid log level %v" [AnyInt level]
  else st <- get ;;
       put {| logLevel := level;
              defaultLevel := defaultLevel st;
              Colours := Colours st |}.

(** log.go, lines 74-80 *)
Definition SetDefaultLevel (level : Z) : Go unit :=
  if (level <? LevelNone) || (level >? LevelDebug)
  then Error (mkFrame srcfile 76) "Invalid log level %v" [AnyInt level]
  else st <- get ;;
       put {| logLevel := logLevel st;
              defaultLevel := level;
              Colours := Colours st |}.

(** [func (writer) Write(p []byte) (n int, err error)], log.go, lines
    128-140.  The [switch] has no [default] and no case for
    [LevelNone]. *)
Definition Write (p : list byte) : Go (Z * option error) :=
  st <- get ;;
  (if defaultLevel st =? LevelDebug
   then Debug (mkFrame srcfile 131) (string_of_list_byte p) []
   else if defaultLevel st =? LevelInfo
   then Info (mkFrame srcfile 133) (string_of_list_byte p) []
   else if defaultLevel st =? LevelWarning
   then Warn (mkFrame srcfile 135) (string_of_list_byte p) []
   else if defaultLevel st =? LevelError
   then Error (mkFrame srcfile 137) (string_of_list_byte p) []
   else ret tt) ;;
  ret (Z.of_nat (List.length p), None).

(** The exported variable [Colours] is assigned directly. *)
Definition SetColours (b : bool) : Go unit :=
  st <- get ;;
  put {| logLevel := logLevel st;
         defaultLevel := defaultLevel st;
         Colours := b |}.

(** *** The public surface

    Everything a client of the package can do to it: the two setters,
    the five entry points, a write through the adapter (directly or
    through the exported [Logger], which writes its text to
    [writer(0)]), and an assignment to [Colours].  [logLevel] and
    [defaultLevel] are unexported. *)
Inductive op : Type :=
| OpSetLogLevel (level : Z)
| OpSetDefaultLevel (level : Z)
| OpLog (s : severity) (caller : frame) (msgFmt : string) (v : list any)
| OpWrite (p : list byte)
| OpColours (b : bool).

Definition run_op (o : op) : Go unit :=
  match o with
  | OpSetLogLevel level => SetLogLevel level
  | OpSetDefaultLevel level => SetDefaultLevel level
  | OpLog s caller msgFmt v => entry s caller msgFmt v
  | OpWrite p => _ <- Write p ;; ret tt
  | OpColours b => SetColours b
  end.

Fixpoint run_ops (os : list op) : Go unit :=
  match os with
  | [] => ret tt
  | o :: os' => run_op o ;; run_ops os'
  end.

End Package.

(** ** The line that [print] assembles

    The operands of the layout, named, to state what a line holds. *)

(** The part of the path that is kept: its last [min(len(fn), 30)]
    bytes. *)
Definition kept (fn : string) : string :=
  slice_from (len fn - Nat.min (len fn) 30) fn.

(** The tag as printed, with or without the ANSI wrapping. *)
Definition shown_tag (colours : bool) (s : severity) : string :=
  if colours
  then ESC ++ "[1m" ++ ESC ++ "[" ++ colour_of s ++ "m" ++ tag_of s
           ++ ESC ++ "[0m"
  else tag_of s.

(** The assembled line of a call at severity [s]. *)
Definition line_of (colours : bool) (s : severity) (caller : frame)
  (msgFmt : string) : string :=
  Fmt.Sprintf_layout (shown_tag colours s) (ellipsis ++ kept (file caller))
    (line caller) msgFmt.

(** What the logger is asked to do with an assembled line. *)
Definition logged (msg : string) (v : list any) : event :=
  match v with
  | [] => Println msg
  | _ :: _ => Printf msg v
  end.

(** Everything a call at severity [s] that passes the gate puts on the
    trace: its line, and for [SevError] the stack dump after it. *)
Definition emitted (colours : bool) (s : severity) (caller : frame)
  (msgFmt : string) (v : list any) : list event :=
  logged (line_of colours s caller msgFmt) v ::
  match s with
  | SevError => [PrintStack]
  | _ => []
  end.

(** The events that are lines handed to the logger. *)
Definition is_line (e : event) : bool :=
  match e with
  | Println _ | Printf _ _ => true
  | PrintStack => false
  end.

Definition lines (out : list event) : list event := filter is_line out.

(** The two variables hold levels of their ranges. *)
Definition in_range (st : state) : Prop :=
  LevelNone <= logLevel st <= LevelTrace /\
  LevelNone <= defaultLevel st <= LevelDebug.

(** The entry points the adapter can reach. *)
Definition non_trace (s : severity) : bool :=
  match s with
  | SevTrace => false
  | _ => true
  end.

(** ** The bytes behind the events

    What reaches the two streams depends on two functions of the Go
    runtime that are taken as given: [fmt.Sprintf] on a format and
    operands chosen by the caller, and the text of the stack trace. *)
Section Rendering.

Variable Sprintf : string -> list any -> string.
Variable Stack : string.

Definition newline : string := String "010" EmptyString.

Fixpoint ends_with_newline (s : string) : bool :=
  match s with
  | EmptyString => false
  | String c EmptyString => Ascii.eqb c "010"
  | String _ s' => ends_with_newline s'
  end.

(** [Logger.Output] with an empty prefix and the flag [LUTC]
    alone: no header, and a newline appended unless the text already
    ends with one. *)
Definition Output (s : string) : string :=
  if ends_with_newline s then s else s ++ newline.

(** [Println(msg)] is [Output(fmt.Sprintln(msg))], [Printf(format, v...)]
    is [Output(fmt.Sprintf(format, v...))], each a single write to
    [os.Stdout]; [debug.PrintStack] writes the trace to [os.Stderr]. *)
Definition render (e : event) : stream * string :=
  match e with
  | Println msg => (Stdout, Output (msg ++ newline))
  | Printf format v => (Stdout, Output (Sprintf format v))
  | PrintStack => (Stderr, Stack)
  end.

End Rendering.

(** ** A fragment of fmt.Sprintf

    The directives [%%], [%d], [%s] and [%v] written without flag, width
    or precision, each on an operand it fits, with no operand missing or
    left over.  [None] stands for everything outside this fragment, about
    which nothing is said here. *)

Definition printArg (a : any) (verb : ascii) : option string :=
  match a, verb with
  | AnyInt n, "d"%char | AnyInt n, "v"%char => Some (Fmt.itoa n)
  | AnyString s, "s"%char | AnyString s, "v"%char => Some s
  | AnyBool b, "v"%char => Some (if b then "true" else "false")
  | _, _ => None
  end.

Fixpoint doPrintf (format : string) (a : list any) : option string :=
  match format with
  | EmptyString =>
    match a with
    | [] => Some EmptyString
    | _ :: _ => None
    end
  | String "%" EmptyString => None
  | String "%" (String "%" rest) =>
    option_map (String "%") (doPrintf rest a)
  | String "%" (String verb rest) =>
    match a with
    | [] => None
    | x :: a' =>
      match printArg x verb, doPrintf rest a' with
      | Some s, Some r => Some (s ++ r)
      | _, _ => None
      end
    end
  | String c rest => option_map (String c) (doPrintf rest a)
  end.

(** ** The exported [Logger] (log.go, line 144)

    [Logger = log.New(writer(0), "", 0)] is a standard logger whose
    destination is the adapter: [Logger.Println(s)] hands the bytes of
    [Output(fmt.Sprintln(s))], that is [s] and a newline, to [Write] in
    one call. *)
Section StandardLogger.

Variable srcfile : string.

Definition Logger_Println (s : string) : Go unit :=
  _ <- Write srcfile (list_byte_of_string (Output (s ++ newline))) ;;
  ret tt.

End StandardLogger.

(** ** The copy of the package in [src/unnamed/part_001]

    The same package without [LevelTrace], [defaultLevel], [Colours] and
    the adapter: its [const] block is that of [log.go] from [LevelDebug]
    down, and [logLevel] is its only variable.  It runs in the same monad
    and leaves the two fields it does not declare alone. *)
Module Part001.

(** part_001, lines 75-89 *)
Definition print (caller : frame) (lvl msgFmt : string) (v : list any)
  : Go unit :=
  let fn := file caller in
  let cutoff := if (len fn <? 30)%nat then len fn else 30%nat in
  let msg := Fmt.Sprintf_layout
               lvl
               (ellipsis ++ slice_from (len fn - cutoff) fn)
               (line caller)
               msgFmt in
  if (List.length v =? 0)%nat
  then emit (Println msg)
  else emit (Printf msg v).

(** part_001, lines 43-73 *)
Definition Debug (caller : frame) (msgFmt : string) (v : list any) : Go unit :=
  st <- get ;;
  if logLevel st <? LevelDebug then ret tt
  else print caller "DBG" msgFmt v.

Definition Info (caller : frame) (msgFmt : string) (v : list any) : Go unit :=
  st <- get ;;
  if logLevel st <? LevelInfo then ret tt
  else print caller "INF" msgFmt v.

Definition Warn (caller : frame) (msgFmt : string) (v : list any) : Go unit :=
  st <- get ;;
  if logLevel st <? LevelWarning then ret tt
  else print caller "WRN" msgFmt v.

Definition Error (caller : frame) (msgFmt : string) (v : list any) : Go unit :=
  st <- get ;;
  if logLevel st <? LevelError then ret tt
  else (print caller "ERR" msgFmt v ;; emit PrintStack).

(** part_001, lines 34-40: the highest level accepted is [LevelDebug]. *)
Definition SetLogLevel (srcfile : string) (level : Z) : Go unit :=
  if (level <? LevelNone) || (level >? LevelDebug)
  then Error (mkFrame srcfile 36) "Invalid log level %v" [AnyInt level]
  else st <- get ;;
       put {| logLevel := level;
              defaultLevel := defaultLevel st;
              Colours := Colours st |}.

(** The entry point of a severity; the copy has none for [SevTrace]. *)
Definition entry (s : severity)
  : option (frame -> string -> list any -> Go unit) :=
  match s with
  | SevTrace => None
  | SevDebug => Some Debug
  | SevInfo => Some Info
  | SevWarning => Some Warn
  | SevError => Some Error
  end.

End Part001.

(** ** The copy of the package in [src/unnamed/part_000]

    [part_001] with [defaultLevel], [SetDefaultLevel] and the adapter
    added, still without [LevelTrace] and [Colours].  The literal that
    [print] puts in front of the path is seven bytes long in this
    file. *)
Module Part000.

(** The bytes of the literal at part_000, line 123: [C3 A2], [E2 82 AC],
    [C2 A6]. *)
Definition marker : string :=
  String "195" (String "162"
    (String "226" (String "130" (String "172"
      (String "194" (String "166" EmptyString)))))).

(** part_000, lines 116-130 *)
Definition print (caller : frame) (lvl msgFmt : string) (v : list any)
  : Go unit :=
  let fn := file caller in
  let cutoff := if (len fn <? 30)%nat then len fn else 30%nat in
  let msg := Fmt.Sprintf_layout
               lvl
               (marker ++ slice_from (len fn - cutoff) fn)
               (line caller)
               msgFmt in
  if (List.length v =? 0)%nat
  then emit (Println msg)
  else emit (Printf msg v).

(** part_000, lines 60-90 *)
Definition Debug (caller : frame) (msgFmt : string) (v : list any) : Go unit :=
  st <- get ;;
  if logLevel st <? LevelDebug then ret tt
  else print caller "DBG" msgFmt v.

Definition Info (caller : frame) (msgFmt : string) (v : list any) : Go unit :=
  st <- get ;;
  if logLevel st <? LevelInfo then ret tt
  else print caller "INF" msgFmt v.

Definition Warn (caller : frame) (msgFmt : string) (v : list any) : Go unit :=
  st <- get ;;
  if logLevel st <? LevelWarning then ret tt
  else print caller "WRN" msgFmt v.

Definition Error (caller : frame) (msgFmt : string) (v : list any) : Go unit :=
  st <- get ;;
  if logLevel st <? LevelError then ret tt
  else (print caller "ERR" msgFmt v ;; emit PrintStack).

(** part_000, lines 37-43 *)
Definition SetLogLevel (srcfile : string) (level : Z) : Go unit :=
  if (level <? LevelNone) || (level >? LevelDebug)
  then Error (mkFrame srcfile 39) "Invalid log level %v" [AnyInt level]
  else st <- get ;;
       put {| logLevel := level;
              defaultLevel := defaultLevel st;
              Colours := Colours st |}.

(** part_000, lines 51-57 *)
Definition SetDefaultLevel (srcfile : string) (level : Z) : Go unit :=
  if (level <? LevelNone) || (level >? LevelDebug)
  then Error (mkFrame srcfile 53) "Invalid log level %v" [AnyInt level]
  else st <- get ;;
       put {| logLevel := logLevel st;
              defaultLevel := level;
              Colours := Colours st |}.

(** part_000, lines 102-114 *)
Definition Write (srcfile : string) (p : list byte)
  : Go (Z * option error) :=
  st <- get ;;
  (if defaultLevel st =? LevelDebug
   then Debug (mkFrame srcfile 105) (string_of_list_byte p) []
   else if defaultLevel st =? LevelInfo
   then Info (mkFrame srcfile 107) (string_of_list_byte p) []
   else if defaultLevel st =? LevelWarning
   then Warn (mkFrame srcfile 109) (string_of_list_byte p) []
   else if defaultLevel st =? LevelError
   then Error (mkFrame srcfile 111) (string_of_list_byte p) []
   else ret tt) ;;
  ret (Z.of_nat (List.length p), None).

Definition entry (s : severity)
  : option (frame -> string -> list any -> Go unit) :=
  match s with
  | SevTrace => None
  | SevDebug => Some Debug
  | SevInfo => Some Info
  | SevWarning => Some Warn
  | SevError => Some Error
  end.

End Part000.

(** ** Vocabulary of the further properties *)

(** Every byte of the string is below [utf8.RuneSelf]. *)
Fixpoint is_ascii (s : string) : bool :=
  match s with
  | EmptyString => true
  | String c s' => (N_of_ascii c <? 128)%N && is_ascii s'
  end.

(** The byte occurs in the string. *)
Fixpoint has_byte (b : ascii) (s : string) : bool :=
  match s with
  | EmptyString => false
  | String c s' => Ascii.eqb c b || has_byte b s'
  end.

(** The operations that only log: the entry points and the adapter. *)
Definition is_logging (o : op) : bool :=
  match o with
  | OpLog _ _ _ _ | OpWrite _ => true
  | _ => false
  end.

(** The one operation that lifts the threshold above [LevelNone]: a
    [SetLogLevel] with a level in [LevelError, LevelTrace]. *)
Definition raises_threshold (o : op) : bool :=
  match o with
  | OpSetLogLevel level => (LevelError <=? level) && (level <=? LevelTrace)
  | _ => false
  end.

(** One emitted message: the colour flag at the time, the severity, the
    frame found by [runtime.Caller(2)], the template and the operands. *)
Record block : Type := mkBlock {
  block_colours : bool;
  block_severity : severity;
  block_caller : frame;
  block_msgFmt : string;
  block_v : list any
}.

Definition trace_of_block (b : block) : list event :=
  emitted (block_colours b) (block_severity b) (block_caller b)
          (block_msgFmt b) (block_v b).

(** The tag wrapped in the ANSI sequences of [print]: bold, the colour,
    the tag, reset. *)
Definition ansi_tag (s : severity) : string :=
  ESC ++ "[1m" ++ ESC ++ "[" ++ colour_of s ++ "m" ++ tag_of s ++ ESC ++ "[0m".

(** * Properties *)

(** Arithmetic on the six level constants. *)
Ltac levels :=
  simpl in *;
  unfold LevelTrace, LevelDebug, LevelInfo, LevelWarning, LevelError,
         LevelNone in *;
  lia.

(** ** Running [print] and the entry points *)

Lemma cutoff_is_min (n : nat) :
  (if (n <? 30)%nat then n else 30%nat) = Nat.min n 30.
Proof.
  destruct (Nat.ltb_spec n 30); lia.
Qed.

(** The slice of [print] is taken inside the string: Go does not panic. *)
Lemma slice_index_in_range (fn : string) :
  (len fn - Nat.min (len fn) 30 <= len fn)%nat.
Proof. lia. Qed.

Lemma logged_by_length (msg : string) (v : list any) :
  (if (List.length v =? 0)%nat then emit (Println msg) else emit (Printf msg v))
  = emit (logged msg v).
Proof. destruct v; reflexivity. Qed.

Lemma print_run (s : severity) (caller : frame) (msgFmt : string)
  (v : list any) (st : state) :
  print caller (colour_of s) (tag_of s) msgFmt v st
  = (tt, st, [logged (line_of (Colours st) s caller msgFmt) v]).
Proof.
  unfold print, bind, get.
  rewrite logged_by_length, cutoff_is_min.
  unfold line_of, shown_tag, kept, emit.
  destruct (Colours st); reflexivity.
Qed.

Lemma entry_run (s : severity) (caller : frame) (msgFmt : string)
  (v : list any) (st : state) :
  entry s caller msgFmt v st
  = (tt, st,
     if logLevel st <? level_of s then []
     else emitted (Colours st) s caller msgFmt v).
Proof.
  destruct s; simpl entry;
    [ unfold Trace | unfold Debug | unfold Info | unfold Warn | unfold Error ];
    unfold bind at 1, get; simpl level_of;
    match goal with |- context [logLevel st <? ?l] =>
      destruct (logLevel st <? l) end;
    try reflexivity.
  - rewrite (print_run SevTrace). reflexivity.
  - rewrite (print_run SevDebug). reflexivity.
  - rewrite (print_run SevInfo). reflexivity.
  - rewrite (print_run SevWarning). reflexivity.
  - unfold bind. rewrite (print_run SevError). reflexivity.
Qed.

Lemma entry_final (s : severity) (caller : frame) (msgFmt : string)
  (v : list any) (st : state) :
  final (entry s caller msgFmt v st) = st.
Proof. rewrite entry_run. reflexivity. Qed.

Lemma lines_emitted (colours : bool) (s : severity) (caller : frame)
  (msgFmt : string) (v : list any) :
  lines (emitted colours s caller msgFmt v)
  = [logged (line_of colours s caller msgFmt) v].
Proof.
  unfold lines, emitted.
  destruct s, v; reflexivity.
Qed.

(** C1: for each of the five severities L and every threshold, the call
    to the entry point of L hands a line to the logger if and only if
    the threshold is at least L; the line it hands over is then exactly
    its formatted line and no other, below the threshold nothing at all
    is emitted, and at equality the line is emitted. *)
Theorem gate_emits_iff (L : severity) (st : state) (caller : frame)
  (msgFmt : string) (v : list any) :
  (lines (output (entry L caller msgFmt v st)) <> []
   <-> logLevel st >= level_of L)
  /\ (lines (output (entry L caller msgFmt v st))
      = [logged (line_of (Colours st) L caller msgFmt) v]
      <-> logLevel st >= level_of L)
  /\ (logLevel st < level_of L ->
      output (entry L caller msgFmt v st) = [])
  /\ lines (output (entry L caller msgFmt v
                      {| logLevel := level_of L;
                         defaultLevel := defaultLevel st;
                         Colours := Colours st |}))
     = [logged (line_of (Colours st) L caller msgFmt) v].
Proof.
  repeat split.
  - rewrite entry_run. unfold output. simpl snd.
    destruct (Z.ltb_spec (logLevel st) (level_of L)) as [Hlt | Hge];
      [intros H; now contradiction H | intros _; lia].
  - rewrite entry_run. unfold output. simpl snd.
    destruct (Z.ltb_spec (logLevel st) (level_of L)) as [Hlt | Hge];
      [lia | intros _; rewrite lines_emitted; discriminate].
  - rewrite entry_run. unfold output. simpl snd.
    destruct (Z.ltb_spec (logLevel st) (level_of L)) as [Hlt | Hge];
      [discriminate | intros _; lia].
  - rewrite entry_run. unfold output. simpl snd.
    destruct (Z.ltb_spec (logLevel st) (level_of L)) as [Hlt | Hge];
      [lia | intros _; apply lines_emitted].
  - intros Hlt. rewrite entry_run. unfold output. simpl snd.
    destruct (Z.ltb_spec (logLevel st) (level_of L)); [reflexivity | lia].
  - rewrite entry_run. unfold output. simpl.
    rewrite Z.ltb_irrefl. apply lines_emitted.
Qed.

(** C9: below the threshold an entry point returns at once: nothing
    reaches the logger or the stack dumper and the three variables keep
    their values. *)
Theorem suppressed_is_noop (S : severity) (st : state) (caller : frame)
  (msgFmt : string) (v : list any) :
  logLevel st < level_of S ->
  entry S caller msgFmt v st = (tt, st, []).
Proof.
  intros Hlt. rewrite entry_run.
  destruct (Z.ltb_spec (logLevel st) (level_of S)); [reflexivity | lia].
Qed.

Lemma suppressed_is_noop_witness :
  entry SevInfo (mkFrame "cmd/main.go" 12) "listening on %s"
        [AnyString ":8080"]
        {| logLevel := LevelWarning; defaultLevel := LevelDebug;
           Colours := true |}
  = (tt,
     {| logLevel := LevelWarning; defaultLevel := LevelDebug;
        Colours := true |},
     []).
Proof.
  apply (suppressed_is_noop SevInfo). levels.
Defined.

(** ** The setters *)

Lemma SetLogLevel_run (srcfile : string) (level : Z) (st : state) :
  SetLogLevel srcfile level st
  = if (level <? LevelNone) || (level >? LevelTrace)
    then entry SevError (mkFrame srcfile 62) "Invalid log level %v"
               [AnyInt level] st
    else (tt,
          {| logLevel := level; defaultLevel := defaultLevel st;
             Colours := Colours st |},
          []).
Proof.
  unfold SetLogLevel.
  destruct ((level <? LevelNone) || (level >? LevelTrace)); reflexivity.
Qed.

Lemma SetDefaultLevel_run (srcfile : string) (level : Z) (st : state) :
  SetDefaultLevel srcfile level st
  = if (level <? LevelNone) || (level >? LevelDebug)
    then entry SevError (mkFrame srcfile 76) "Invalid log level %v"
               [AnyInt level] st
    else (tt,
          {| logLevel := logLevel st; defaultLevel := level;
             Colours := Colours st |},
          []).
Proof.
  unfold SetDefaultLevel.
  destruct ((level <? LevelNone) || (level >? LevelDebug)); reflexivity.
Qed.

Lemma out_of_range_test (level lo hi : Z) :
  level < lo \/ level > hi -> (level <? lo) || (level >? hi) = true.
Proof.
  intros [H | H]; apply orb_true_iff; [left | right]; lia.
Qed.

Lemma in_range_test (level lo hi : Z) :
  lo <= level <= hi -> (level <? lo) || (level >? hi) = false.
Proof.
  intros H. apply orb_false_iff. split; lia.
Qed.

(** A level of the range is stored and nothing is printed. *)
Lemma SetLogLevel_accepts (srcfile : string) (level : Z) (st : state) :
  LevelNone <= level <= LevelTrace ->
  SetLogLevel srcfile level st
  = (tt,
     {| logLevel := level; defaultLevel := defaultLevel st;
        Colours := Colours st |},
     []).
Proof.
  intros Hin. now rewrite SetLogLevel_run, (in_range_test _ _ _ Hin).
Qed.

Lemma SetDefaultLevel_accepts (srcfile : string) (level : Z) (st : state) :
  LevelNone <= level <= LevelDebug ->
  SetDefaultLevel srcfile level st
  = (tt,
     {| logLevel := logLevel st; defaultLevel := level;
        Colours := Colours st |},
     []).
Proof.
  intros Hin. now rewrite SetDefaultLevel_run, (in_range_test _ _ _ Hin).
Qed.

(** What a rejected level leaves on the trace: the report goes through
    [Error], which is gated like every other call. *)
Lemma rejected_output (st : state) (caller : frame) (level : Z) :
  output (entry SevError caller "Invalid log level %v" [AnyInt level] st)
  = if logLevel st <? LevelError then []
    else [Printf (line_of (Colours st) SevError caller "Invalid log level %v")
                 [AnyInt level];
          PrintStack].
Proof. rewrite entry_run. reflexivity. Qed.

(** C3, amended: a level below [LevelNone] or above [LevelTrace] given to
    [SetLogLevel] leaves every variable as it was; the call hands one
    [ERR] line, whose operand is the rejected value, to the logger and
    dumps the stack when the threshold is at least [LevelError], and is
    silent when the threshold is [LevelNone]. *)
Theorem SetLogLevel_rejects (srcfile : string) (level : Z) (st : state) :
  level < LevelNone \/ level > LevelTrace ->
  final (SetLogLevel srcfile level st) = st /\
  (logLevel st >= LevelError ->
   output (SetLogLevel srcfile level st)
   = [Printf (line_of (Colours st) SevError (mkFrame srcfile 62)
                      "Invalid log level %v")
             [AnyInt level];
      PrintStack]) /\
  (logLevel st < LevelError ->
   output (SetLogLevel srcfile level st) = []).
Proof.
  intros Hout. rewrite SetLogLevel_run, (out_of_range_test _ _ _ Hout).
  split; [apply entry_final |].
  rewrite rejected_output.
  destruct (Z.ltb_spec (logLevel st) LevelError); split; intros; try lia;
    reflexivity.
Qed.

Lemma SetLogLevel_rejects_witness :
  final (SetLogLevel "/go/src/log/log.go" 6 initial) = initial /\
  (logLevel initial >= LevelError ->
   output (SetLogLevel "/go/src/log/log.go" 6 initial)
   = [Printf (line_of (Colours initial) SevError
                      (mkFrame "/go/src/log/log.go" 62)
                      "Invalid log level %v")
             [AnyInt 6];
      PrintStack]) /\
  (logLevel initial < LevelError ->
   output (SetLogLevel "/go/src/log/log.go" 6 initial) = []).
Proof.
  apply (SetLogLevel_rejects "/go/src/log/log.go" 6 initial).
  right. levels.
Defined.

(** C3 as stated fails: after [SetLogLevel(LevelNone)] the threshold is
    0, and [SetLogLevel(7)] then produces no line at all. *)
Lemma SetLogLevel_silent_at_LevelNone :
  final (SetLogLevel "/go/src/log/log.go" LevelNone initial)
  = {| logLevel := 0; defaultLevel := 4; Colours := false |} /\
  lines (output (SetLogLevel "/go/src/log/log.go" 7
                   {| logLevel := 0; defaultLevel := 4; Colours := false |}))
  = [].
Proof. split; reflexivity. Qed.

(** C4, amended: a level below [LevelNone] or above [LevelDebug]
    ([LevelTrace] included) given to [SetDefaultLevel] leaves every
    variable as it was; the call hands one [ERR] line to the logger and
    dumps the stack when the threshold is at least [LevelError], and is
    silent when the threshold is [LevelNone]. *)
Theorem SetDefaultLevel_rejects (srcfile : string) (level : Z) (st : state) :
  level < LevelNone \/ level > LevelDebug ->
  final (SetDefaultLevel srcfile level st) = st /\
  (logLevel st >= LevelError ->
   output (SetDefaultLevel srcfile level st)
   = [Printf (line_of (Colours st) SevError (mkFrame srcfile 76)
                      "Invalid log level %v")
             [AnyInt level];
      PrintStack]) /\
  (logLevel st < LevelError ->
   output (SetDefaultLevel srcfile level st) = []).
Proof.
  intros Hout. rewrite SetDefaultLevel_run, (out_of_range_test _ _ _ Hout).
  split; [apply entry_final |].
  rewrite rejected_output.
  destruct (Z.ltb_spec (logLevel st) LevelError); split; intros; try lia;
    reflexivity.
Qed.

Lemma SetDefaultLevel_rejects_witness :
  final (SetDefaultLevel "/go/src/log/log.go" LevelTrace initial) = initial /\
  (logLevel initial >= LevelError ->
   output (SetDefaultLevel "/go/src/log/log.go" LevelTrace initial)
   = [Printf (line_of (Colours initial) SevError
                      (mkFrame "/go/src/log/log.go" 76)
                      "Invalid log level %v")
             [AnyInt LevelTrace];
      PrintStack]) /\
  (logLevel initial < LevelError ->
   output (SetDefaultLevel "/go/src/log/log.go" LevelTrace initial) = []).
Proof.
  apply (SetDefaultLevel_rejects "/go/src/log/log.go" LevelTrace initial).
  right. levels.
Defined.

(** C4 as stated fails: with the threshold at [LevelNone],
    [SetDefaultLevel(5)] produces no line at all. *)
Lemma SetDefaultLevel_silent_at_LevelNone :
  final (SetLogLevel "/go/src/log/log.go" LevelNone initial)
  = {| logLevel := 0; defaultLevel := 4; Colours := false |} /\
  lines (output (SetDefaultLevel "/go/src/log/log.go" 5
                   {| logLevel := 0; defaultLevel := 4; Colours := false |}))
  = [].
Proof. split; reflexivity. Qed.

(** ** The adapter *)

Lemma Write_run (srcfile : string) (p : list byte) (st : state) :
  Write srcfile p st
  = (Z.of_nat (List.length p), None, st,
     if defaultLevel st =? LevelDebug
     then output (entry SevDebug (mkFrame srcfile 131)
                        (string_of_list_byte p) [] st)
     else if defaultLevel st =? LevelInfo
     then output (entry SevInfo (mkFrame srcfile 133)
                        (string_of_list_byte p) [] st)
     else if defaultLevel st =? LevelWarning
     then output (entry SevWarning (mkFrame srcfile 135)
                        (string_of_list_byte p) [] st)
     else if defaultLevel st =? LevelError
     then output (entry SevError (mkFrame srcfile 137)
                        (string_of_list_byte p) [] st)
     else []).
Proof.
  unfold Write, bind at 1, get, bind at 1.
  repeat match goal with
         | |- context [defaultLevel st =? ?l] =>
           destruct (defaultLevel st =? l)
         end.
  - change Debug with (entry SevDebug). rewrite entry_run.
    unfold ret, output. simpl. rewrite app_nil_r. reflexivity.
  - change Info with (entry SevInfo). rewrite entry_run.
    unfold ret, output. simpl. rewrite app_nil_r. reflexivity.
  - change Warn with (entry SevWarning). rewrite entry_run.
    unfold ret, output. simpl. rewrite app_nil_r. reflexivity.
  - change Error with (entry SevError). rewrite entry_run.
    unfold ret, output. simpl. rewrite app_nil_r. reflexivity.
  - reflexivity.
Qed.

Lemma Write_final (srcfile : string) (p : list byte) (st : state) :
  final (Write srcfile p st) = st.
Proof. rewrite Write_run. reflexivity. Qed.

(** The adapter run as "call the entry point of [L], then return". *)
Lemma bind_entry_run {A} (L : severity) (caller : frame) (msgFmt : string)
  (v : list any) (a : A) (st : state) :
  (entry L caller msgFmt v ;; ret a) st
  = (a, st, output (entry L caller msgFmt v st)).
Proof.
  unfold bind, ret. rewrite entry_run. unfold output. simpl.
  rewrite app_nil_r. reflexivity.
Qed.

Lemma level_of_inj (L L' : severity) : level_of L = level_of L' -> L = L'.
Proof. destruct L, L'; simpl; intros H; try reflexivity; discriminate H. Qed.

(** C5, amended: for a Default Adapter Level in [LevelError, LevelDebug]
    a call to [Write] invokes exactly one of [Debug], [Info], [Warn] and
    [Error], the one whose level is the Default Adapter Level read at the
    call; at [LevelNone] it invokes none of them and the message is
    dropped. *)
Theorem Write_dispatch (srcfile : string) (p : list byte) (st : state) :
  LevelNone <= defaultLevel st <= LevelDebug ->
  (defaultLevel st = LevelNone /\
   Write srcfile p st = (Z.of_nat (List.length p), None, st, []))
  \/
  (exists L : severity,
      non_trace L = true /\
      level_of L = defaultLevel st /\
      (forall L' : severity, level_of L' = defaultLevel st -> L' = L) /\
      exists ln : Z,
        Write srcfile p st
        = (entry L (mkFrame srcfile ln) (string_of_list_byte p) [] ;;
           ret (Z.of_nat (List.length p), None)) st).
Proof.
  intros Hd. rewrite Write_run.
  assert (Hcases : defaultLevel st = LevelNone \/ defaultLevel st = LevelError
                   \/ defaultLevel st = LevelWarning
                   \/ defaultLevel st = LevelInfo
                   \/ defaultLevel st = LevelDebug)
    by levels.
  destruct Hcases as [H | [H | [H | [H | H]]]]; rewrite H.
  - left. split; reflexivity.
  - right. exists SevError. repeat split.
    + intros L' HL'. apply level_of_inj. exact HL'.
    + exists 137. rewrite bind_entry_run. reflexivity.
  - right. exists SevWarning. repeat split.
    + intros L' HL'. apply level_of_inj. exact HL'.
    + exists 135. rewrite bind_entry_run. reflexivity.
  - right. exists SevInfo. repeat split.
    + intros L' HL'. apply level_of_inj. exact HL'.
    + exists 133. rewrite bind_entry_run. reflexivity.
  - right. exists SevDebug. repeat split.
    + intros L' HL'. apply level_of_inj. exact HL'.
    + exists 131. rewrite bind_entry_run. reflexivity.
Qed.

Lemma Write_dispatch_witness :
  (defaultLevel {| logLevel := 5; defaultLevel := 3; Colours := false |}
   = LevelNone /\
   Write "/go/src/log/log.go" (list_byte_of_string "hello")
         {| logLevel := 5; defaultLevel := 3; Colours := false |}
   = (Z.of_nat (List.length (list_byte_of_string "hello")), None,
      {| logLevel := 5; defaultLevel := 3; Colours := false |}, []))
  \/
  (exists L : severity,
      non_trace L = true /\
      level_of L
      = defaultLevel {| logLevel := 5; defaultLevel := 3; Colours := false |} /\
      (forall L' : severity,
          level_of L'
          = defaultLevel {| logLevel := 5; defaultLevel := 3;
                            Colours := false |} ->
          L' = L) /\
      exists ln : Z,
        Write "/go/src/log/log.go" (list_byte_of_string "hello")
              {| logLevel := 5; defaultLevel := 3; Colours := false |}
        = (entry L (mkFrame "/go/src/log/log.go" ln)
                 (string_of_list_byte (list_byte_of_string "hello")) [] ;;
           ret (Z.of_nat (List.length (list_byte_of_string "hello")), None))
            {| logLevel := 5; defaultLevel := 3; Colours := false |}).
Proof.
  apply (Write_dispatch "/go/src/log/log.go" (list_byte_of_string "hello")
           {| logLevel := 5; defaultLevel := 3; Colours := false |}).
  levels.
Defined.

(** C5 as stated fails at [LevelNone]: with the Default Adapter Level at
    0 and the threshold at [LevelTrace], where every entry point leaves a
    line on the trace, [Write] leaves none: no entry point was invoked. *)
Lemma Write_at_LevelNone_invokes_nothing :
  final (SetDefaultLevel "/go/src/log/log.go" LevelNone
           {| logLevel := 5; defaultLevel := 4; Colours := false |})
  = {| logLevel := 5; defaultLevel := 0; Colours := false |} /\
  output (Write "/go/src/log/log.go" (list_byte_of_string "hello")
            {| logLevel := 5; defaultLevel := 0; Colours := false |})
  = [] /\
  (forall (L : severity) (caller : frame) (msgFmt : string) (v : list any),
      output (entry L caller msgFmt v
                {| logLevel := 5; defaultLevel := 0; Colours := false |})
      <> []).
Proof.
  split; [reflexivity | split; [reflexivity |]].
  intros L caller msgFmt v. rewrite entry_run.
  destruct L; simpl; discriminate.
Qed.

(** C6: for every buffer and every state, [Write] returns the length of
    the buffer and a nil error. *)
Theorem Write_returns_len_nil (srcfile : string) (p : list byte) (st : state) :
  result (Write srcfile p st) = (Z.of_nat (List.length p), None).
Proof. rewrite Write_run. reflexivity. Qed.

(** ** The range invariant *)

Lemma in_range_initial : in_range initial.
Proof. unfold in_range, initial. levels. Qed.

Lemma run_op_in_range (srcfile : string) (o : op) (st : state) :
  in_range st -> in_range (final (run_op srcfile o st)).
Proof.
  intros Hst. destruct o as [level | level | s caller msgFmt v | p | b];
    simpl run_op.
  - rewrite SetLogLevel_run.
    destruct ((level <? LevelNone) || (level >? LevelTrace)) eqn:Htest.
    + rewrite entry_final. exact Hst.
    + apply orb_false_iff in Htest. destruct Htest as [Hlo Hhi].
      destruct Hst as [_ Hd]. split; simpl; [lia | exact Hd].
  - rewrite SetDefaultLevel_run.
    destruct ((level <? LevelNone) || (level >? LevelDebug)) eqn:Htest.
    + rewrite entry_final. exact Hst.
    + apply orb_false_iff in Htest. destruct Htest as [Hlo Hhi].
      destruct Hst as [Hl _]. split; simpl; [exact Hl | lia].
  - rewrite entry_final. exact Hst.
  - unfold bind, ret.
    generalize (Write_final srcfile p st). unfold final.
    destruct (Write srcfile p st) as [[r st1] out1]. simpl.
    intros ->. exact Hst.
  - exact Hst.
Qed.

Lemma run_ops_cons (srcfile : string) (o : op) (os : list op) (st : state) :
  run_ops srcfile (o :: os) st
  = (tt, final (run_ops srcfile os (final (run_op srcfile o st))),
     (output (run_op srcfile o st)
      ++ output (run_ops srcfile os (final (run_op srcfile o st))))%list).
Proof.
  simpl run_ops. unfold bind, final, output.
  destruct (run_op srcfile o st) as [[[] st1] out1]. simpl.
  destruct (run_ops srcfile os st1) as [[[] st2] out2]. reflexivity.
Qed.

Lemma run_ops_in_range (srcfile : string) (os : list op) :
  forall st : state, in_range st -> in_range (final (run_ops srcfile os st)).
Proof.
  induction os as [| o os IH]; intros st Hst.
  - exact Hst.
  - rewrite run_ops_cons. unfold final at 1. simpl.
    apply IH, run_op_in_range, Hst.
Qed.

(** C7: after any sequence of public operations from the initial state
    the threshold lies in [LevelNone, LevelTrace] and the Default Adapter
    Level in [LevelNone, LevelDebug]. *)
Theorem levels_stay_in_range (srcfile : string) (os : list op) :
  LevelNone <= logLevel (final (run_ops srcfile os initial)) <= LevelTrace /\
  LevelNone <= defaultLevel (final (run_ops srcfile os initial)) <= LevelDebug.
Proof. apply run_ops_in_range, in_range_initial. Qed.

(** ** Strings *)

Lemma append_assoc (a b c : string) : (a ++ b) ++ c = a ++ b ++ c.
Proof. induction a as [| x a IH]; simpl; [reflexivity | now rewrite IH]. Qed.

Lemma slice_from_0 (s : string) : slice_from 0 s = s.
Proof. destruct s; reflexivity. Qed.

(** [s[i:]] is what remains of [s] after its first [i] bytes. *)
Lemma slice_from_split (i : nat) :
  forall s : string, (i <= len s)%nat ->
  exists front : string, s = front ++ slice_from i s /\ len front = i.
Proof.
  induction i as [| i IH]; intros s Hi.
  - exists EmptyString. rewrite slice_from_0. split; reflexivity.
  - destruct s as [| c s]; simpl in Hi; [lia |].
    destruct (IH s) as [front [Hs Hlen]]; [lia |].
    exists (String c front). simpl. split; [now rewrite <- Hs | now rewrite Hlen].
Qed.

Lemma len_slice_from (i : nat) :
  forall s : string, len (slice_from i s) = (len s - i)%nat.
Proof.
  induction i as [| i IH]; intros s.
  - rewrite slice_from_0. lia.
  - destruct s as [| c s]; simpl; [reflexivity | apply IH].
Qed.

Lemma kept_short (p : string) : (len p <= 30)%nat -> kept p = p.
Proof.
  intros H. unfold kept. rewrite Nat.min_l by exact H.
  rewrite Nat.sub_diag. apply slice_from_0.
Qed.

Lemma kept_long (p : string) :
  (len p > 30)%nat ->
  len (kept p) = 30%nat /\
  exists front : string, p = front ++ kept p /\ len front = (len p - 30)%nat.
Proof.
  intros H. unfold kept. rewrite Nat.min_r by lia. split.
  - rewrite len_slice_from. lia.
  - apply slice_from_split. lia.
Qed.

Lemma ends_with_newline_append (s : string) :
  ends_with_newline (s ++ newline) = true.
Proof.
  induction s as [| c s IH]; [reflexivity |].
  simpl. destruct (s ++ newline) eqn:E; [| exact IH].
  destruct s; discriminate E.
Qed.

Lemma Output_line (s : string) : Output (s ++ newline) = s ++ newline.
Proof. unfold Output. now rewrite ends_with_newline_append. Qed.

(** ** The layout of a line *)

(** The line, piece by piece: the bracketed tag, the blanks that bring
    the path operand to 30 runes, the ellipsis, the kept part of the
    path, a colon, the line number padded to 3 on the right, a blank and
    the template. *)
Lemma line_of_layout (colours : bool) (L : severity) (caller : frame)
  (msgFmt : string) :
  line_of colours L caller msgFmt
  = ("[" ++ shown_tag colours L ++ "] "
         ++ Fmt.writePadding
              (30 - Utf8.RuneCountInString (ellipsis ++ kept (file caller))))
      ++ ellipsis ++ kept (file caller)
      ++ (":" ++ Fmt.verb_minus3d (line caller) ++ " " ++ msgFmt).
Proof.
  unfold line_of, Fmt.Sprintf_layout, Fmt.verb_s, Fmt.verb_30s, Fmt.padString.
  simpl Nat.sub. simpl Fmt.writePadding.
  change (String "[" (shown_tag colours L ++ ?x))
    with ("[" ++ shown_tag colours L ++ x).
  simpl.
  rewrite !append_assoc. reflexivity.
Qed.

Lemma substring_at_front (sub post : string) :
  substring 0 (len sub) (sub ++ post) = sub.
Proof.
  induction sub as [| c sub IH]; simpl.
  - destruct post; reflexivity.
  - now rewrite IH.
Qed.

Lemma substring_in_middle (pre sub post : string) :
  substring (len pre) (len sub) (pre ++ sub ++ post) = sub.
Proof.
  induction pre as [| c pre IH]; simpl.
  - apply substring_at_front.
  - exact IH.
Qed.

Lemma contains_middle (pre sub post : string) :
  sub <> EmptyString -> contains (pre ++ sub ++ post) sub = true.
Proof.
  intros Hne. unfold contains.
  destruct (index 0 sub (pre ++ sub ++ post)) eqn:E; [reflexivity |].
  exfalso.
  apply (index_correct3 0 (len pre) sub (pre ++ sub ++ post) E Hne);
    [lia | apply substring_in_middle].
Qed.

Lemma line_of_contains_path (colours : bool) (L : severity) (caller : frame)
  (msgFmt : string) :
  contains (line_of colours L caller msgFmt) (ellipsis ++ kept (file caller))
  = true.
Proof.
  rewrite line_of_layout, <- (append_assoc ellipsis).
  apply contains_middle. discriminate.
Qed.

Lemma passing_lines (L : severity) (st : state) (caller : frame)
  (msgFmt : string) (v : list any) :
  logLevel st >= level_of L ->
  lines (output (entry L caller msgFmt v st))
  = [logged (line_of (Colours st) L caller msgFmt) v].
Proof.
  intros Hge. rewrite entry_run. unfold output. simpl snd.
  destruct (Z.ltb_spec (logLevel st) (level_of L)); [lia |].
  apply lines_emitted.
Qed.

(** C2, amended: the line that a call passing the gate assembles always
    holds the ellipsis marker followed at once by the last
    [min(len(p), 30)] bytes of the caller's path [p]: exactly the last 30
    bytes when [len(p) > 30], and [p] itself, still behind the marker,
    when [len(p) <= 30]. *)
Theorem path_follows_ellipsis (L : severity) (st : state) (caller : frame)
  (msgFmt : string) (v : list any) :
  logLevel st >= level_of L ->
  exists l : string,
    lines (output (entry L caller msgFmt v st)) = [logged l v] /\
    contains l (ellipsis ++ kept (file caller)) = true /\
    ((len (file caller) > 30)%nat ->
     len (kept (file caller)) = 30%nat /\
     exists front : string, file caller = front ++ kept (file caller)) /\
    ((len (file caller) <= 30)%nat -> kept (file caller) = file caller).
Proof.
  intros Hge. exists (line_of (Colours st) L caller msgFmt).
  split; [apply (passing_lines L st caller msgFmt v Hge) |].
  split; [apply line_of_contains_path |].
  split.
  - intros Hlong. destruct (kept_long _ Hlong) as [H30 [front [Hp _]]].
    split; [exact H30 | exists front; exact Hp].
  - apply kept_short.
Qed.

Lemma path_follows_ellipsis_witness :
  exists l : string,
    lines (output (entry SevWarning
                     (mkFrame "/home/user/go/src/project/cmd/server/main.go" 42)
                     "disk almost full" [] initial))
    = [logged l []] /\
    contains l (ellipsis
                  ++ kept (file (mkFrame
                       "/home/user/go/src/project/cmd/server/main.go" 42)))
    = true /\
    ((len (file (mkFrame "/home/user/go/src/project/cmd/server/main.go" 42))
      > 30)%nat ->
     len (kept (file (mkFrame
                        "/home/user/go/src/project/cmd/server/main.go" 42)))
     = 30%nat /\
     exists front : string,
       file (mkFrame "/home/user/go/src/project/cmd/server/main.go" 42)
       = front ++ kept (file (mkFrame
                          "/home/user/go/src/project/cmd/server/main.go" 42))) /\
    ((len (file (mkFrame "/home/user/go/src/project/cmd/server/main.go" 42))
      <= 30)%nat ->
     kept (file (mkFrame "/home/user/go/src/project/cmd/server/main.go" 42))
     = file (mkFrame "/home/user/go/src/project/cmd/server/main.go" 42)).
Proof.
  apply (path_follows_ellipsis SevWarning initial
           (mkFrame "/home/user/go/src/project/cmd/server/main.go" 42)
           "disk almost full" []).
  levels.
Defined.

(** The kept part of a long path, on an instance. *)
Example kept_long_path :
  kept "/home/user/go/src/project/cmd/server/main.go"
  = "src/project/cmd/server/main.go" /\
  len "src/project/cmd/server/main.go" = 30%nat.
Proof. split; reflexivity. Qed.

(** C2 as stated fails for a short path: called from [main.go], 7 bytes
    long, [Info] prints the path verbatim but with the ellipsis marker in
    front of it. *)
Lemma short_path_has_ellipsis :
  (len "main.go" <= 30)%nat /\
  exists l : string,
    output (Info (mkFrame "main.go" 7) "started" [] initial) = [Println l] /\
    contains l "main.go" = true /\
    contains l ellipsis = true /\
    contains l (ellipsis ++ "main.go") = true.
Proof.
  split; [simpl; lia |].
  eexists. split; [reflexivity |]. repeat split; reflexivity.
Qed.

(** ** Error and the stack dump *)

(** C8, amended: an [Error] call that passes the threshold check hands
    its line to the logger, which writes to standard output, and then
    unconditionally dumps the stack, which [debug.PrintStack] writes to
    standard error; both precede whatever the following operations
    emit. *)
Theorem Error_line_then_stack (srcfile : string) (st : state)
  (caller : frame) (msgFmt : string) (v : list any) (rest : list op) :
  logLevel st >= LevelError ->
  output (Error caller msgFmt v st)
  = [logged (line_of (Colours st) SevError caller msgFmt) v; PrintStack] /\
  map stream_of (output (Error caller msgFmt v st)) = [Stdout; Stderr] /\
  output (run_ops srcfile (OpLog SevError caller msgFmt v :: rest) st)
  = ([logged (line_of (Colours st) SevError caller msgFmt) v; PrintStack]
       ++ output (run_ops srcfile rest st))%list.
Proof.
  intros Hge.
  assert (Hrun : Error caller msgFmt v st
                 = (tt, st,
                    [logged (line_of (Colours st) SevError caller msgFmt) v;
                     PrintStack])).
  { change Error with (entry SevError). rewrite entry_run.
    destruct (Z.ltb_spec (logLevel st) (level_of SevError));
      [simpl in *; lia | reflexivity]. }
  split; [now rewrite Hrun |].
  split.
  - rewrite Hrun. unfold output. simpl. destruct v; reflexivity.
  - rewrite run_ops_cons. simpl run_op.
    change (entry SevError) with Error. rewrite Hrun. reflexivity.
Qed.

Lemma Error_line_then_stack_witness :
  output (Error (mkFrame "main.go" 7) "boom" [] initial)
  = [logged (line_of (Colours initial) SevError (mkFrame "main.go" 7) "boom")
            [];
     PrintStack] /\
  map stream_of (output (Error (mkFrame "main.go" 7) "boom" [] initial))
  = [Stdout; Stderr] /\
  output (run_ops "/go/src/log/log.go"
            [OpLog SevError (mkFrame "main.go" 7) "boom" [];
             OpLog SevInfo (mkFrame "main.go" 8) "next" []]
            initial)
  = ([logged (line_of (Colours initial) SevError (mkFrame "main.go" 7) "boom")
             [];
      PrintStack]
       ++ output (run_ops "/go/src/log/log.go"
                    [OpLog SevInfo (mkFrame "main.go" 8) "next" []]
                    initial))%list.
Proof.
  apply (Error_line_then_stack "/go/src/log/log.go" initial
           (mkFrame "main.go" 7) "boom" []
           [OpLog SevInfo (mkFrame "main.go" 8) "next" []]).
  levels.
Defined.

(** C8 as stated fails on the stream: the line of an [Error] call goes
    to standard output and the stack dump that follows it to standard
    error. *)
Lemma stack_dump_on_other_stream :
  exists l : string,
    output (Error (mkFrame "main.go" 7) "boom" [] initial)
    = [Println l; PrintStack] /\
    stream_of (Println l) = Stdout /\
    stream_of PrintStack = Stderr /\
    stream_of (Println l) <> stream_of PrintStack.
Proof.
  eexists. split; [reflexivity |]. repeat split. discriminate.
Qed.

(** ** Operands and the format string *)

(** C10: when a call that passes the gate carries operands, the format
    handed to [Printf] is the whole assembled line, made of the tag, the
    padding, the ellipsis, the kept part of the caller's path, the line
    number and the template, so that whatever [Sprintf] does with a
    directive it does to the path as to the template; without operands
    the assembled line is printed as it is, whatever [Sprintf] is. *)
Theorem operands_format_whole_line (L : severity) (st : state)
  (caller : frame) (msgFmt : string) (v : list any) :
  logLevel st >= level_of L ->
  line_of (Colours st) L caller msgFmt
  = ("[" ++ shown_tag (Colours st) L ++ "] "
         ++ Fmt.writePadding
              (30 - Utf8.RuneCountInString (ellipsis ++ kept (file caller))))
      ++ ellipsis ++ kept (file caller)
      ++ (":" ++ Fmt.verb_minus3d (line caller) ++ " " ++ msgFmt) /\
  (v <> [] ->
   lines (output (entry L caller msgFmt v st))
   = [Printf (line_of (Colours st) L caller msgFmt) v] /\
   forall (Sprintf : string -> list any -> string) (Stack : string),
     map (render Sprintf Stack) (lines (output (entry L caller msgFmt v st)))
     = [(Stdout, Output (Sprintf (line_of (Colours st) L caller msgFmt) v))]) /\
  (v = [] ->
   lines (output (entry L caller msgFmt v st))
   = [Println (line_of (Colours st) L caller msgFmt)] /\
   forall (Sprintf : string -> list any -> string) (Stack : string),
     map (render Sprintf Stack) (lines (output (entry L caller msgFmt v st)))
     = [(Stdout, line_of (Colours st) L caller msgFmt ++ newline)]).
Proof.
  intros Hge. split; [apply line_of_layout |].
  rewrite (passing_lines L st caller msgFmt v Hge).
  split; intros Hv.
  - destruct v as [| a v]; [contradiction |]. split; reflexivity.
  - subst v. split; [reflexivity |]. intros Sprintf Stack.
    cbn [logged map render]. now rewrite Output_line.
Qed.

Lemma operands_format_whole_line_witness :
  line_of (Colours initial) SevInfo (mkFrame "/srv/100%d/app.go" 9) "ready"
  = ("[" ++ shown_tag (Colours initial) SevInfo ++ "] "
         ++ Fmt.writePadding
              (30 - Utf8.RuneCountInString
                      (ellipsis
                         ++ kept (file (mkFrame "/srv/100%d/app.go" 9)))))
      ++ ellipsis ++ kept (file (mkFrame "/srv/100%d/app.go" 9))
      ++ (":" ++ Fmt.verb_minus3d (line (mkFrame "/srv/100%d/app.go" 9))
              ++ " " ++ "ready") /\
  ([AnyInt 1] <> [] ->
   lines (output (entry SevInfo (mkFrame "/srv/100%d/app.go" 9) "ready"
                        [AnyInt 1] initial))
   = [Printf (line_of (Colours initial) SevInfo
                      (mkFrame "/srv/100%d/app.go" 9) "ready")
             [AnyInt 1]] /\
   forall (Sprintf : string -> list any -> string) (Stack : string),
     map (render Sprintf Stack)
         (lines (output (entry SevInfo (mkFrame "/srv/100%d/app.go" 9)
                               "ready" [AnyInt 1] initial)))
     = [(Stdout,
         Output (Sprintf (line_of (Colours initial) SevInfo
                                  (mkFrame "/srv/100%d/app.go" 9) "ready")
                         [AnyInt 1]))]) /\
  ([AnyInt 1] = [] ->
   lines (output (entry SevInfo (mkFrame "/srv/100%d/app.go" 9) "ready"
                        [AnyInt 1] initial))
   = [Println (line_of (Colours initial) SevInfo
                       (mkFrame "/srv/100%d/app.go" 9) "ready")] /\
   forall (Sprintf : string -> list any -> string) (Stack : string),
     map (render Sprintf Stack)
         (lines (output (entry SevInfo (mkFrame "/srv/100%d/app.go" 9)
                               "ready" [AnyInt 1] initial)))
     = [(Stdout,
         line_of (Colours initial) SevInfo (mkFrame "/srv/100%d/app.go" 9)
                 "ready" ++ newline)]).
Proof.
  apply (operands_format_whole_line SevInfo initial
           (mkFrame "/srv/100%d/app.go" 9) "ready" [AnyInt 1]).
  levels.
Defined.

(** A directive in the caller's path is part of the format: [Info]
    called with one operand from a file under [/srv/100%d/] hands
    [Printf] a format that holds [100%d] as well as the template, and the
    same call without operands prints the same text through [Println]. *)
Example directive_in_path_reaches_Printf :
  exists f : string,
    output (Info (mkFrame "/srv/100%d/app.go" 9) "ready" [AnyInt 1] initial)
    = [Printf f [AnyInt 1]] /\
    output (Info (mkFrame "/srv/100%d/app.go" 9) "ready" [] initial)
    = [Println f] /\
    contains f "/srv/100%d/app.go:9" = true /\
    f = "[INF] " ++ Fmt.writePadding 12 ++ ellipsis
                 ++ "/srv/100%d/app.go:9   ready".
Proof.
  eexists. repeat split; reflexivity.
Qed.

(** What the directive in the path does, for every [Sprintf] that
    agrees with Go's on the fragment [doPrintf]: the operand meant for
    the template is consumed by the [%d] of the directory name. *)
Section InterpretedPath.

Variable Sprintf : string -> list any -> string.
Variable Stack : string.
Hypothesis Sprintf_fragment :
  forall (format : string) (a : list any) (r : string),
    doPrintf format a = Some r -> Sprintf format a = r.

Lemma directive_in_path_consumes_operand :
  map (render Sprintf Stack)
      (output (Info (mkFrame "/srv/100%d/app.go" 9) "ready" [AnyInt 1]
                    initial))
  = [(Stdout,
      "[INF] " ++ Fmt.writePadding 12 ++ ellipsis
               ++ "/srv/1001/app.go:9   ready" ++ newline)].
Proof.
  cbn [map]. unfold render.
  match goal with
  | |- context [Info ?c ?m ?v initial] =>
    let o := eval vm_compute in (output (Info c m v initial)) in
    change (output (Info c m v initial)) with o
  end.
  cbn [map].
  erewrite Sprintf_fragment by (vm_compute; reflexivity).
  reflexivity.
Qed.

End InterpretedPath.

(** * Further properties of the package *)

(** ** The adapter, continued *)

(** The [switch] of [Write], as a case distinction on the default level. *)
Lemma Write_cases (srcfile : string) (p : list byte) (st : state) :
  (exists (L : severity) (ln : Z),
      non_trace L = true /\
      level_of L = defaultLevel st /\
      output (Write srcfile p st)
      = output (entry L (mkFrame srcfile ln) (string_of_list_byte p) [] st))
  \/
  ((defaultLevel st < LevelError \/ defaultLevel st > LevelDebug) /\
   output (Write srcfile p st) = []).
Proof.
  rewrite Write_run. unfold output at 1 3. cbn [snd].
  destruct (Z.eqb_spec (defaultLevel st) LevelDebug) as [E4 | N4];
    [left; exists SevDebug, 131; now rewrite E4 |].
  destruct (Z.eqb_spec (defaultLevel st) LevelInfo) as [E3 | N3];
    [left; exists SevInfo, 133; now rewrite E3 |].
  destruct (Z.eqb_spec (defaultLevel st) LevelWarning) as [E2 | N2];
    [left; exists SevWarning, 135; now rewrite E2 |].
  destruct (Z.eqb_spec (defaultLevel st) LevelError) as [E1 | N1];
    [left; exists SevError, 137; now rewrite E1 |].
  right. split; [levels | reflexivity].
Qed.

Lemma entry_output (L : severity) (caller : frame) (msgFmt : string)
  (v : list any) (st : state) :
  output (entry L caller msgFmt v st)
  = if logLevel st <? level_of L then []
    else emitted (Colours st) L caller msgFmt v.
Proof. rewrite entry_run. reflexivity. Qed.

(** X1: whatever [Write] puts on the trace is a [Println] of a line
    whose template is the buffer, byte for byte, at the severity of the
    default level and located in the package's own file, or the stack
    dump of [Error]; it is never a [Printf], so a [%] in the buffer is
    never taken for a directive. *)
Theorem Write_prints_bytes_literally (srcfile : string) (p : list byte)
  (st : state) :
  Forall
    (fun e : event =>
       e = PrintStack \/
       exists (L : severity) (ln : Z),
         non_trace L = true /\
         level_of L = defaultLevel st /\
         e = Println (line_of (Colours st) L (mkFrame srcfile ln)
                              (string_of_list_byte p)))
    (output (Write srcfile p st)).
Proof.
  destruct (Write_cases srcfile p st) as [[L [ln [Hnt [Hlvl Hout]]]] | [_ Hout]];
    rewrite Hout; [| constructor].
  rewrite entry_output.
  destruct (logLevel st <? level_of L); [constructor |].
  unfold emitted. constructor.
  - right. exists L, ln. repeat split; assumption.
  - destruct L; constructor; [left; reflexivity | constructor].
Qed.

(** X2: [Write] prints a line exactly when the default level is one of
    [LevelError] .. [LevelDebug] and the threshold is at least the
    default level; in every other state the buffer is dropped in
    silence. *)
Theorem Write_emits_iff (srcfile : string) (p : list byte) (st : state) :
  lines (output (Write srcfile p st)) <> [] <->
  LevelError <= defaultLevel st <= LevelDebug /\
  defaultLevel st <= logLevel st.
Proof.
  destruct (Write_cases srcfile p st) as [[L [ln [Hnt [Hlvl Hout]]]] | [Hd Hout]];
    rewrite Hout.
  - rewrite entry_output.
    destruct (Z.ltb_spec (logLevel st) (level_of L)) as [Hlt | Hge].
    + split; [intros H; now contradiction H | intros [_ H]; lia].
    + rewrite lines_emitted. split; [intros _ | discriminate].
      split; [destruct L; try discriminate Hnt; levels | lia].
  - split; [intros H; now contradiction H | intros [H _]; lia].
Qed.

(** ** Silence at [LevelNone] *)

Lemma silent_step (srcfile : string) (o : op) (st : state) :
  logLevel st < LevelError ->
  raises_threshold o = false ->
  output (run_op srcfile o st) = [] /\
  logLevel (final (run_op srcfile o st)) < LevelError.
Proof.
  intros Hst Ho.
  assert (Herr : forall caller msgFmt v,
             entry SevError caller msgFmt v st = (tt, st, [])).
  { intros. rewrite entry_run.
    destruct (Z.ltb_spec (logLevel st) (level_of SevError));
      [reflexivity | levels]. }
  destruct o as [level | level | s caller msgFmt v | p | b]; simpl run_op.
  - rewrite SetLogLevel_run.
    destruct ((level <? LevelNone) || (level >? LevelTrace)) eqn:Htest.
    + rewrite Herr. split; [reflexivity | exact Hst].
    + split; [reflexivity |]. simpl in Ho |- *.
      apply orb_false_iff in Htest. apply andb_false_iff in Ho.
      destruct Htest, Ho; levels.
  - rewrite SetDefaultLevel_run.
    destruct ((level <? LevelNone) || (level >? LevelDebug)).
    + rewrite Herr. split; [reflexivity | exact Hst].
    + split; [reflexivity | exact Hst].
  - rewrite entry_run.
    destruct (Z.ltb_spec (logLevel st) (level_of s));
      [split; [reflexivity | exact Hst] | destruct s; levels].
  - unfold bind, ret. rewrite Write_run. cbn [final output fst snd].
    split; [| exact Hst].
    rewrite !entry_output.
    repeat match goal with
           | |- context [logLevel st <? level_of ?L] =>
             destruct (Z.ltb_spec (logLevel st) (level_of L)); [| levels]
           end.
    repeat match goal with
           | |- context [if ?b then _ else _] => destruct b
           end; reflexivity.
  - split; [reflexivity | exact Hst].
Qed.

(** X3: once the threshold is [LevelNone] the package prints nothing,
    whatever is called (entry points, adapter, rejected setter calls
    included), until [SetLogLevel] is given a level from [LevelError] to
    [LevelTrace]. *)
Theorem LevelNone_silences_everything (srcfile : string) (os : list op) :
  forall st : state,
    logLevel st < LevelError ->
    forallb (fun o => negb (raises_threshold o)) os = true ->
    output (run_ops srcfile os st) = [] /\
    logLevel (final (run_ops srcfile os st)) < LevelError.
Proof.
  induction os as [| o os IH]; intros st Hst Hos.
  - split; [reflexivity | exact Hst].
  - simpl in Hos. apply andb_true_iff in Hos. destruct Hos as [Ho Hos].
    apply negb_true_iff in Ho.
    destruct (silent_step srcfile o st Hst Ho) as [Hout Hnext].
    destruct (IH _ Hnext Hos) as [Hout' Hfinal'].
    rewrite run_ops_cons. cbn [output final fst snd].
    rewrite Hout, Hout'. split; [reflexivity | exact Hfinal'].
Qed.

Lemma LevelNone_silences_everything_witness :
  output (run_ops "/go/src/log/log.go"
            [OpLog SevError (mkFrame "main.go" 3) "disk full" [];
             OpSetLogLevel 9;
             OpSetDefaultLevel LevelError;
             OpWrite (list_byte_of_string "from the adapter");
             OpColours true;
             OpLog SevTrace (mkFrame "main.go" 4) "%d bytes" [AnyInt 5]]
            {| logLevel := LevelNone; defaultLevel := LevelDebug;
               Colours := false |})
  = [] /\
  logLevel
    (final (run_ops "/go/src/log/log.go"
              [OpLog SevError (mkFrame "main.go" 3) "disk full" [];
               OpSetLogLevel 9;
               OpSetDefaultLevel LevelError;
               OpWrite (list_byte_of_string "from the adapter");
               OpColours true;
               OpLog SevTrace (mkFrame "main.go" 4) "%d bytes" [AnyInt 5]]
              {| logLevel := LevelNone; defaultLevel := LevelDebug;
                 Colours := false |}))
  < LevelError.
Proof.
  apply (LevelNone_silences_everything "/go/src/log/log.go"
           [OpLog SevError (mkFrame "main.go" 3) "disk full" [];
            OpSetLogLevel 9;
            OpSetDefaultLevel LevelError;
            OpWrite (list_byte_of_string "from the adapter");
            OpColours true;
            OpLog SevTrace (mkFrame "main.go" 4) "%d bytes" [AnyInt 5]]).
  - levels.
  - reflexivity.
Defined.

(** ** Configuration and logging *)

Lemma logging_step (srcfile : string) (o : op) (st : state) :
  is_logging o = true -> final (run_op srcfile o st) = st.
Proof.
  destruct o as [level | level | s caller msgFmt v | p | b];
    try discriminate; intros _; simpl run_op.
  - apply entry_final.
  - unfold bind, ret.
    generalize (Write_final srcfile p st). unfold final.
    destruct (Write srcfile p st) as [[r st1] out1]. simpl. intros ->.
    reflexivity.
Qed.

(** X4: logging never reconfigures: after any sequence of calls to the
    entry points and of writes through the adapter the threshold, the
    default level and the colour flag are what they were, whatever was
    printed on the way. *)
Theorem logging_preserves_state (srcfile : string) (os : list op) :
  forall st : state,
    forallb is_logging os = true ->
    final (run_ops srcfile os st) = st.
Proof.
  induction os as [| o os IH]; intros st Hos; [reflexivity |].
  simpl in Hos. apply andb_true_iff in Hos. destruct Hos as [Ho Hos].
  rewrite run_ops_cons. cbn [final fst snd].
  rewrite (logging_step srcfile o st Ho). apply IH, Hos.
Qed.

Lemma logging_preserves_state_witness :
  final (run_ops "/go/src/log/log.go"
           [OpLog SevError (mkFrame "main.go" 3) "disk full" [];
            OpWrite (list_byte_of_string "from the adapter");
            OpLog SevTrace (mkFrame "main.go" 4) "%d bytes" [AnyInt 5]]
           {| logLevel := LevelInfo; defaultLevel := LevelWarning;
              Colours := true |})
  = {| logLevel := LevelInfo; defaultLevel := LevelWarning;
       Colours := true |}.
Proof.
  apply (logging_preserves_state "/go/src/log/log.go"
           [OpLog SevError (mkFrame "main.go" 3) "disk full" [];
            OpWrite (list_byte_of_string "from the adapter");
            OpLog SevTrace (mkFrame "main.go" 4) "%d bytes" [AnyInt 5]]).
  reflexivity.
Defined.

(** X5: every configuration within the ranges can be reached from the
    initial one through the public setters, without a byte of output:
    the ranges are exactly the reachable configurations. *)
Theorem in_range_is_reachable (srcfile : string) (st : state) :
  LevelNone <= logLevel st <= LevelTrace ->
  LevelNone <= defaultLevel st <= LevelDebug ->
  run_ops srcfile
    [OpSetLogLevel (logLevel st); OpSetDefaultLevel (defaultLevel st);
     OpColours (Colours st)]
    initial
  = (tt, st, []).
Proof.
  intros Hl Hd. rewrite !run_ops_cons. simpl run_op. simpl run_ops.
  rewrite (SetLogLevel_accepts srcfile _ initial Hl). cbn [final output fst snd].
  rewrite (SetDefaultLevel_accepts srcfile _ _ Hd). cbn [final output fst snd].
  destruct st as [l d c]. reflexivity.
Qed.

Lemma in_range_is_reachable_witness :
  run_ops "/go/src/log/log.go"
    [OpSetLogLevel (logLevel {| logLevel := 5; defaultLevel := 0;
                                Colours := true |});
     OpSetDefaultLevel (defaultLevel {| logLevel := 5; defaultLevel := 0;
                                        Colours := true |});
     OpColours (Colours {| logLevel := 5; defaultLevel := 0;
                           Colours := true |})]
    initial
  = (tt, {| logLevel := 5; defaultLevel := 0; Colours := true |}, []).
Proof.
  apply (in_range_is_reachable "/go/src/log/log.go"
           {| logLevel := 5; defaultLevel := 0; Colours := true |});
    levels.
Defined.

Lemma final_bind {A B} (m : Go A) (k : A -> Go B) (st : state) :
  final (bind m k st) = final (k (result (m st)) (final (m st))).
Proof.
  unfold bind, final, result.
  destruct (m st) as [[a st1] out1]. simpl.
  destruct (k a st1) as [[b st2] out2]. reflexivity.
Qed.

Lemma SetLogLevel_final (srcfile : string) (level : Z) (st : state) :
  final (SetLogLevel srcfile level st)
  = if (level <? LevelNone) || (level >? LevelTrace) then st
    else {| logLevel := level; defaultLevel := defaultLevel st;
            Colours := Colours st |}.
Proof.
  rewrite SetLogLevel_run.
  destruct ((level <? LevelNone) || (level >? LevelTrace));
    [apply entry_final | reflexivity].
Qed.

Lemma SetDefaultLevel_final (srcfile : string) (level : Z) (st : state) :
  final (SetDefaultLevel srcfile level st)
  = if (level <? LevelNone) || (level >? LevelDebug) then st
    else {| logLevel := logLevel st; defaultLevel := level;
            Colours := Colours st |}.
Proof.
  rewrite SetDefaultLevel_run.
  destruct ((level <? LevelNone) || (level >? LevelDebug));
    [apply entry_final | reflexivity].
Qed.

(** X6: the two setters commute on the configuration for all arguments,
    accepted or rejected: neither touches the other's variable nor the
    colour flag. *)
Theorem setters_commute_on_state (srcfile : string) (a b : Z) (st : state) :
  final ((SetLogLevel srcfile a ;; SetDefaultLevel srcfile b) st)
  = final ((SetDefaultLevel srcfile b ;; SetLogLevel srcfile a) st)
  /\ defaultLevel (final (SetLogLevel srcfile a st)) = defaultLevel st
  /\ Colours (final (SetLogLevel srcfile a st)) = Colours st
  /\ logLevel (final (SetDefaultLevel srcfile b st)) = logLevel st
  /\ Colours (final (SetDefaultLevel srcfile b st)) = Colours st.
Proof.
  rewrite !final_bind, !SetLogLevel_final, !SetDefaultLevel_final.
  destruct ((a <? LevelNone) || (a >? LevelTrace));
    destruct ((b <? LevelNone) || (b >? LevelDebug));
    repeat split; reflexivity.
Qed.

(** X7: setting the threshold and logging compose as a write and a
    read: right after [SetLogLevel(l)] with [l] in range, a call at
    severity L prints its line if and only if [l >= L]. *)
Theorem SetLogLevel_then_gate (srcfile : string) (l : Z) (L : severity)
  (st : state) (caller : frame) (msgFmt : string) (v : list any) :
  LevelNone <= l <= LevelTrace ->
  (lines (output ((SetLogLevel srcfile l ;; entry L caller msgFmt v) st))
   = [logged (line_of (Colours st) L caller msgFmt) v]
   <-> l >= level_of L).
Proof.
  intros Hl. unfold bind.
  rewrite (SetLogLevel_accepts srcfile l st Hl), entry_run.
  cbn [output snd app logLevel Colours].
  destruct (Z.ltb_spec l (level_of L)).
  - split; [discriminate | lia].
  - rewrite lines_emitted. split; [lia | reflexivity].
Qed.

Lemma SetLogLevel_then_gate_witness :
  lines (output ((SetLogLevel "/go/src/log/log.go" LevelTrace ;;
                  entry SevTrace (mkFrame "net.go" 88) "rx %d" [AnyInt 12])
                   initial))
  = [logged (line_of (Colours initial) SevTrace (mkFrame "net.go" 88) "rx %d")
            [AnyInt 12]]
  <-> LevelTrace >= level_of SevTrace.
Proof.
  apply (SetLogLevel_then_gate "/go/src/log/log.go" LevelTrace SevTrace
           initial (mkFrame "net.go" 88) "rx %d" [AnyInt 12]).
  levels.
Defined.

(** ** The shape of a trace *)

Lemma run_op_block (srcfile : string) (o : op) (st : state) :
  output (run_op srcfile o st) = []
  \/ exists b : block, output (run_op srcfile o st) = trace_of_block b.
Proof.
  assert (Hentry : forall L caller msgFmt v,
             output (entry L caller msgFmt v st) = []
             \/ exists b : block,
                 output (entry L caller msgFmt v st) = trace_of_block b).
  { intros. rewrite entry_output.
    destruct (logLevel st <? level_of L); [left; reflexivity |].
    right. exists (mkBlock (Colours st) L caller msgFmt v). reflexivity. }
  destruct o as [level | level | s caller msgFmt v | p | b]; simpl run_op.
  - rewrite SetLogLevel_run.
    destruct ((level <? LevelNone) || (level >? LevelTrace));
      [apply Hentry | left; reflexivity].
  - rewrite SetDefaultLevel_run.
    destruct ((level <? LevelNone) || (level >? LevelDebug));
      [apply Hentry | left; reflexivity].
  - apply Hentry.
  - assert (Hw : output ((_ <- Write srcfile p ;; ret tt) st)
                 = output (Write srcfile p st)).
    { unfold bind, ret, output.
      destruct (Write srcfile p st) as [[r st1] out1]. simpl.
      apply app_nil_r. }
    rewrite Hw.
    destruct (Write_cases srcfile p st) as [[L [ln [_ [_ Hout]]]] | [_ Hout]];
      rewrite Hout; [apply Hentry | left; reflexivity].
  - left; reflexivity.
Qed.

(** X8: every trace of the package is a sequence of blocks, at most one
    per operation; a block is one line handed to the logger, followed by
    a stack dump exactly when its severity is Error.  So no operation
    prints more than one line and no stack dump appears without its
    error line right before it. *)
Theorem trace_is_blocks (srcfile : string) (os : list op) :
  forall st : state,
  exists bs : list block,
    output (run_ops srcfile os st) = List.concat (map trace_of_block bs) /\
    (List.length bs <= List.length os)%nat.
Proof.
  induction os as [| o os IH]; intros st.
  - exists []. split; [reflexivity | apply le_n].
  - rewrite run_ops_cons. unfold output at 1. cbn [snd].
    destruct (IH (final (run_op srcfile o st))) as [bs [Hbs Hlen]].
    rewrite Hbs.
    destruct (run_op_block srcfile o st) as [Hnil | [b Hb]].
    + rewrite Hnil. exists bs. split; [reflexivity | simpl; lia].
    + rewrite Hb. exists (b :: bs). split; [reflexivity | simpl; lia].
Qed.

(** ** Bytes and runes of a line *)

Lemma len_append (a b : string) : len (a ++ b) = (len a + len b)%nat.
Proof. induction a as [| x a IH]; simpl; [reflexivity | now rewrite IH]. Qed.

Lemma len_writePadding (n : nat) : len (Fmt.writePadding n) = n.
Proof. induction n as [| n IH]; simpl; [reflexivity | now rewrite IH]. Qed.

Lemma len_kept (p : string) : len (kept p) = Nat.min (len p) 30.
Proof. unfold kept. rewrite len_slice_from. lia. Qed.

Lemma slice_from_append (a b : string) : slice_from (len a) (a ++ b) = b.
Proof. induction a as [| x a IH]; simpl; [apply slice_from_0 | exact IH]. Qed.

Lemma has_byte_append (b : ascii) (x y : string) :
  has_byte b (x ++ y) = has_byte b x || has_byte b y.
Proof.
  induction x as [| c x IH]; simpl; [reflexivity |].
  now rewrite IH, orb_assoc.
Qed.

Lemma has_byte_slice_from (b : ascii) (i : nat) :
  forall s : string, has_byte b s = false -> has_byte b (slice_from i s) = false.
Proof.
  induction i as [| i IH]; intros s Hs.
  - now rewrite slice_from_0.
  - destruct s as [| c s]; [reflexivity |].
    simpl in Hs |- *. apply orb_false_iff in Hs. apply IH, Hs.
Qed.

Lemma no_escape_in_padding (n : nat) :
  has_byte "027" (Fmt.writePadding n) = false.
Proof. induction n as [| n IH]; [reflexivity | exact IH]. Qed.

Lemma no_escape_in_digits (d : Decimal.uint) :
  has_byte "027" (NilEmpty.string_of_uint d) = false.
Proof. induction d; simpl; assumption || reflexivity. Qed.

Lemma no_escape_in_itoa (n : Z) : has_byte "027" (Fmt.itoa n) = false.
Proof.
  unfold Fmt.itoa, NilZero.string_of_int.
  destruct (Z.to_int n) as [d | d];
    [| change (has_byte "027" (NilZero.string_of_uint d) = false)];
    unfold NilZero.string_of_uint;
    destruct d; try reflexivity;
    match goal with
    | |- has_byte _ (NilEmpty.string_of_uint ?u) = false =>
      apply (no_escape_in_digits u)
    end.
Qed.

Lemma is_ascii_slice_from (i : nat) :
  forall s : string, is_ascii s = true -> is_ascii (slice_from i s) = true.
Proof.
  induction i as [| i IH]; intros s Hs.
  - now rewrite slice_from_0.
  - destruct s as [| c s]; [reflexivity |].
    simpl in Hs |- *. apply andb_true_iff in Hs. apply IH, Hs.
Qed.

Lemma rune_count_one_byte (c : ascii) (s : string) :
  Utf8.first c = None ->
  Utf8.RuneCountInString (String c s) = S (Utf8.RuneCountInString s).
Proof. intros H. simpl. now rewrite H. Qed.

Lemma first_of_ascii (c : ascii) :
  (N_of_ascii c <? 128)%N = true -> Utf8.first c = None.
Proof.
  intros H. unfold Utf8.first.
  apply N.ltb_lt in H.
  destruct (N.ltb_spec (N_of_ascii c) 194); [reflexivity | lia].
Qed.

(** An ASCII string has as many runes as bytes. *)
Lemma rune_count_ascii (s : string) :
  is_ascii s = true -> Utf8.RuneCountInString s = len s.
Proof.
  induction s as [| c s IH]; intros Hs; [reflexivity |].
  simpl in Hs. apply andb_true_iff in Hs. destruct Hs as [Hc Hs].
  rewrite (rune_count_one_byte c s (first_of_ascii c Hc)).
  simpl. now rewrite IH.
Qed.

(** The marker is one rune of three bytes. *)
Lemma rune_count_ellipsis (s : string) :
  Utf8.RuneCountInString (ellipsis ++ s) = S (Utf8.RuneCountInString s).
Proof. reflexivity. Qed.

Lemma rune_count_padding (n : nat) (s : string) :
  Utf8.RuneCountInString (Fmt.writePadding n ++ s)
  = (n + Utf8.RuneCountInString s)%nat.
Proof.
  induction n as [| n IH]; [reflexivity |].
  change (Fmt.writePadding (S n) ++ s)
    with (String " " (Fmt.writePadding n ++ s)).
  rewrite rune_count_one_byte by reflexivity. now rewrite IH.
Qed.

(** The line with its first operand apart from the rest. *)
Lemma line_of_tag_rest (colours : bool) (L : severity) (caller : frame)
  (msgFmt : string) :
  line_of colours L caller msgFmt
  = "[" ++ shown_tag colours L ++ "] "
        ++ Fmt.verb_30s (ellipsis ++ kept (file caller))
        ++ ":" ++ Fmt.verb_minus3d (line caller) ++ " " ++ msgFmt.
Proof.
  unfold line_of, Fmt.Sprintf_layout, Fmt.verb_s, Fmt.padString.
  simpl Nat.sub. simpl Fmt.writePadding.
  change (String "[" (shown_tag colours L ++ ?x))
    with ("[" ++ shown_tag colours L ++ x).
  reflexivity.
Qed.

(** X9: the colour flag changes the tag and nothing else: for one and
    the same call, the line printed with [Colours] on is the line
    printed with [Colours] off with the tag wrapped in the bold, colour
    and reset sequences; padding, path, line number and template are the
    same bytes. *)
Theorem colours_only_change_tag (L : severity) (caller : frame)
  (msgFmt : string) (v : list any) (l d : Z) :
  l >= level_of L ->
  exists rest : string,
    lines (output (entry L caller msgFmt v
                     {| logLevel := l; defaultLevel := d; Colours := false |}))
    = [logged ("[" ++ tag_of L ++ "] " ++ rest) v] /\
    lines (output (entry L caller msgFmt v
                     {| logLevel := l; defaultLevel := d; Colours := true |}))
    = [logged ("[" ++ ansi_tag L ++ "] " ++ rest) v].
Proof.
  intros Hl.
  exists (Fmt.verb_30s (ellipsis ++ kept (file caller))
            ++ ":" ++ Fmt.verb_minus3d (line caller) ++ " " ++ msgFmt).
  rewrite !passing_lines by exact Hl.
  cbn [Colours]. rewrite !line_of_tag_rest. split; reflexivity.
Qed.

Lemma colours_only_change_tag_witness :
  exists rest : string,
    lines (output (entry SevWarning (mkFrame "cmd/main.go" 12) "low disk" []
                     {| logLevel := 3; defaultLevel := 4; Colours := false |}))
    = [logged ("[" ++ tag_of SevWarning ++ "] " ++ rest) []] /\
    lines (output (entry SevWarning (mkFrame "cmd/main.go" 12) "low disk" []
                     {| logLevel := 3; defaultLevel := 4; Colours := true |}))
    = [logged ("[" ++ ansi_tag SevWarning ++ "] " ++ rest) []].
Proof.
  apply (colours_only_change_tag SevWarning (mkFrame "cmd/main.go" 12)
           "low disk" [] 3 4).
  levels.
Defined.

Lemma no_escape_in_plain_line (L : severity) (caller : frame)
  (msgFmt : string) :
  has_byte "027" (file caller) = false ->
  has_byte "027" msgFmt = false ->
  has_byte "027" (line_of false L caller msgFmt) = false.
Proof.
  intros Hp Hm. rewrite line_of_tag_rest.
  unfold Fmt.verb_30s, Fmt.verb_minus3d, Fmt.padString.
  rewrite !has_byte_append, !no_escape_in_padding, no_escape_in_itoa, Hm.
  unfold kept. rewrite (has_byte_slice_from _ _ _ Hp).
  destruct L; reflexivity.
Qed.

(** X10: with [Colours] off the package adds no escape byte of its own:
    when neither the caller's path nor the template holds the byte
    [\x1b], no line handed to the logger holds it. *)
Theorem no_escape_without_colours (L : severity) (st : state)
  (caller : frame) (msgFmt : string) (v : list any) :
  Colours st = false ->
  has_byte "027" (file caller) = false ->
  has_byte "027" msgFmt = false ->
  Forall
    (fun e : event =>
       match e with
       | Println l | Printf l _ => has_byte "027" l = false
       | PrintStack => True
       end)
    (output (entry L caller msgFmt v st)).
Proof.
  intros Hc Hp Hm. rewrite entry_output, Hc.
  destruct (logLevel st <? level_of L); [constructor |].
  unfold emitted. constructor.
  - destruct v; simpl; apply no_escape_in_plain_line; assumption.
  - destruct L; repeat constructor.
Qed.

Lemma no_escape_without_colours_witness :
  Forall
    (fun e : event =>
       match e with
       | Println l | Printf l _ => has_byte "027" l = false
       | PrintStack => True
       end)
    (output (entry SevError (mkFrame "cmd/main.go" 12) "open %s: %v"
                   [AnyString "a.txt"; AnyString "denied"] initial)).
Proof.
  apply (no_escape_without_colours SevError initial (mkFrame "cmd/main.go" 12)
           "open %s: %v" [AnyString "a.txt"; AnyString "denied"]);
    reflexivity.
Defined.

Lemma path_field_runes (p : string) :
  is_ascii p = true ->
  Utf8.RuneCountInString (Fmt.verb_30s (ellipsis ++ kept p))
  = if (len p <? 30)%nat then 30%nat else 31%nat.
Proof.
  intros Hp. unfold Fmt.verb_30s, Fmt.padString.
  rewrite rune_count_padding, rune_count_ellipsis.
  rewrite (rune_count_ascii (kept p)) by (apply is_ascii_slice_from, Hp).
  rewrite len_kept.
  destruct (Nat.ltb_spec (len p) 30); lia.
Qed.

Lemma append_nil_r (s : string) : s ++ EmptyString = s.
Proof. induction s as [| c s IH]; simpl; [reflexivity | now rewrite IH]. Qed.

Lemma contains_at_end (pre sub : string) :
  sub <> EmptyString -> contains (pre ++ sub) sub = true.
Proof.
  intros Hne. rewrite <- (append_nil_r sub) at 1.
  apply contains_middle, Hne.
Qed.

(** X11: the path column.  For an ASCII path shorter than 30 bytes the
    field that holds the marker and the path is exactly 30 runes wide;
    from 30 bytes on the marker and the 30 bytes kept make 31 runes, one
    more than the width of the layout, and the rest of the line moves
    one column to the right.  The empty path of a failed
    [runtime.Caller] is the first case. *)
Theorem path_field_width (L : severity) (st : state) (caller : frame)
  (msgFmt : string) (v : list any) :
  logLevel st >= level_of L ->
  is_ascii (file caller) = true ->
  exists field : string,
    lines (output (entry L caller msgFmt v st))
    = [logged ("[" ++ shown_tag (Colours st) L ++ "] " ++ field ++ ":"
                   ++ Fmt.verb_minus3d (line caller) ++ " " ++ msgFmt) v] /\
    contains field (ellipsis ++ kept (file caller)) = true /\
    Utf8.RuneCountInString field
    = if (len (file caller) <? 30)%nat then 30%nat else 31%nat.
Proof.
  intros Hl Hp.
  exists (Fmt.verb_30s (ellipsis ++ kept (file caller))).
  rewrite (passing_lines L st caller msgFmt v Hl), line_of_tag_rest.
  split; [reflexivity |]. split; [| apply path_field_runes, Hp].
  unfold Fmt.verb_30s, Fmt.padString.
  apply contains_at_end. discriminate.
Qed.

Lemma path_field_width_witness :
  exists field : string,
    lines (output (entry SevInfo
                     (mkFrame "/home/user/go/src/project/cmd/server/main.go" 42)
                     "ready" [] initial))
    = [logged ("[" ++ shown_tag (Colours initial) SevInfo ++ "] " ++ field
                   ++ ":"
                   ++ Fmt.verb_minus3d
                        (line (mkFrame
                           "/home/user/go/src/project/cmd/server/main.go" 42))
                   ++ " " ++ "ready") []] /\
    contains field
      (ellipsis
         ++ kept (file (mkFrame
                          "/home/user/go/src/project/cmd/server/main.go" 42)))
    = true /\
    Utf8.RuneCountInString field
    = if (len (file (mkFrame
                       "/home/user/go/src/project/cmd/server/main.go" 42))
          <? 30)%nat
      then 30%nat else 31%nat.
Proof.
  apply (path_field_width SevInfo initial
           (mkFrame "/home/user/go/src/project/cmd/server/main.go" 42)
           "ready" []).
  - levels.
  - reflexivity.
Defined.

Lemma forallb_upto (f : nat -> bool) (n k : nat) :
  forallb f (seq 0 n) = true -> (k < n)%nat -> f k = true.
Proof.
  intros Hall Hk. rewrite forallb_forall in Hall.
  apply Hall, in_seq. lia.
Qed.

(** A line number of at most three digits fills its field exactly. *)
Lemma len_line_field (n : Z) :
  0 <= n <= 999 -> len (Fmt.verb_minus3d n) = 3%nat.
Proof.
  intros Hn.
  assert (Hall : forallb
                   (fun k => (len (Fmt.verb_minus3d (Z.of_nat k)) =? 3)%nat)
                   (seq 0 1000) = true) by (vm_compute; reflexivity).
  assert (Hk : (Z.to_nat n < 1000)%nat) by lia.
  pose proof (forallb_upto _ 1000%nat (Z.to_nat n) Hall Hk) as H.
  cbv beta in H. rewrite Z2Nat.id in H by lia. now apply Nat.eqb_eq in H.
Qed.

Lemma len_path_field (p : string) :
  is_ascii p = true ->
  len (Fmt.verb_30s (ellipsis ++ kept p))
  = if (len p <? 30)%nat then 32%nat else 33%nat.
Proof.
  intros Hp. unfold Fmt.verb_30s, Fmt.padString.
  rewrite rune_count_ellipsis.
  rewrite (rune_count_ascii (kept p)) by (apply is_ascii_slice_from, Hp).
  rewrite !len_append, len_writePadding, len_kept.
  change (len ellipsis) with 3%nat.
  destruct (Nat.ltb_spec (len p) 30); lia.
Qed.

Lemma len_shown_tag (colours : bool) (L : severity) :
  len (shown_tag colours L) = if colours then 16%nat else 3%nat.
Proof. destruct colours, L; reflexivity. Qed.

(** X12: the template starts at a fixed byte of the line.  For an ASCII
    path and a line number from 0 to 999 the template is what follows
    the first 43 bytes of the line, plus 13 when colours are on and plus
    1 when the path has 30 bytes or more. *)
Theorem template_at_fixed_offset (L : severity) (st : state) (caller : frame)
  (msgFmt : string) (v : list any) :
  logLevel st >= level_of L ->
  is_ascii (file caller) = true ->
  0 <= line caller <= 999 ->
  exists l : string,
    lines (output (entry L caller msgFmt v st)) = [logged l v] /\
    slice_from (43 + (if Colours st then 13 else 0)
                   + (if (len (file caller) <? 30)%nat then 0 else 1))%nat
               l
    = msgFmt.
Proof.
  intros Hl Hp Hn.
  exists (line_of (Colours st) L caller msgFmt).
  split; [apply (passing_lines L st caller msgFmt v Hl) |].
  rewrite line_of_tag_rest.
  set (pre := "[" ++ shown_tag (Colours st) L ++ "] "
                  ++ Fmt.verb_30s (ellipsis ++ kept (file caller))
                  ++ ":" ++ Fmt.verb_minus3d (line caller) ++ " ").
  assert (Hsplit : "[" ++ shown_tag (Colours st) L ++ "] "
                       ++ Fmt.verb_30s (ellipsis ++ kept (file caller))
                       ++ ":" ++ Fmt.verb_minus3d (line caller) ++ " "
                       ++ msgFmt
                   = pre ++ msgFmt).
  { unfold pre. rewrite !append_assoc. reflexivity. }
  assert (Hlen : len pre
                 = (43 + (if Colours st then 13 else 0)
                    + (if (len (file caller) <? 30)%nat then 0 else 1))%nat).
  { unfold pre. rewrite !len_append, len_shown_tag, (len_path_field _ Hp),
      (len_line_field _ Hn).
    change (len "[") with 1%nat. change (len "] ") with 2%nat.
    change (len ":") with 1%nat. change (len " ") with 1%nat.
    destruct (Colours st), (len (file caller) <? 30)%nat; reflexivity. }
  rewrite Hsplit, <- Hlen. apply slice_from_append.
Qed.

Lemma template_at_fixed_offset_witness :
  exists l : string,
    lines (output (entry SevDebug (mkFrame "cmd/main.go" 12) "cache %s"
                         [AnyString "warm"] initial))
    = [logged l [AnyString "warm"]] /\
    slice_from (43 + (if Colours initial then 13 else 0)
                   + (if (len (file (mkFrame "cmd/main.go" 12)) <? 30)%nat
                      then 0 else 1))%nat
               l
    = "cache %s".
Proof.
  apply (template_at_fixed_offset SevDebug initial (mkFrame "cmd/main.go" 12)
           "cache %s" [AnyString "warm"]).
  - levels.
  - reflexivity.
  - simpl. lia.
Defined.

(** ** The exported [Logger] *)

(** X13: a message printed through the exported [Logger] reaches
    standard output with two newlines after it: the standard logger
    hands [Write] the text with its newline, the text and newline become
    the template of the entry point, and [logger.Println] ends the line
    once more.  This holds whenever the default level is one of
    [LevelError] .. [LevelDebug] and passes the threshold, for every
    [Sprintf]. *)
Theorem Logger_leaves_blank_line (srcfile : string) (s : string)
  (st : state) :
  LevelError <= defaultLevel st <= LevelDebug ->
  defaultLevel st <= logLevel st ->
  exists pre : string,
    forall (Sprintf : string -> list any -> string) (Stack : string),
      map (render Sprintf Stack)
          (lines (output (Logger_Println srcfile s st)))
      = [(Stdout, pre ++ s ++ newline ++ newline)].
Proof.
  intros Hd Hl.
  assert (Hout : output (Logger_Println srcfile s st)
                 = output (Write srcfile
                             (list_byte_of_string (Output (s ++ newline))) st)).
  { unfold Logger_Println, bind, ret, output.
    destruct (Write srcfile _ st) as [[r st1] out1]. simpl. apply app_nil_r. }
  rewrite Hout.
  destruct (Write_cases srcfile (list_byte_of_string (Output (s ++ newline))) st)
    as [[L [ln [_ [HL Hw]]]] | [Hbad _]]; [| levels].
  rewrite Hw, passing_lines by lia.
  rewrite string_of_list_byte_of_string, Output_line.
  exists ("[" ++ shown_tag (Colours st) L ++ "] "
              ++ Fmt.verb_30s (ellipsis ++ kept srcfile)
              ++ ":" ++ Fmt.verb_minus3d ln ++ " ").
  intros Sprintf Stack. cbn [logged map render].
  rewrite Output_line, line_of_tag_rest. cbn [file line].
  rewrite !append_assoc. reflexivity.
Qed.

Lemma Logger_leaves_blank_line_witness :
  exists pre : string,
    forall (Sprintf : string -> list any -> string) (Stack : string),
      map (render Sprintf Stack)
          (lines (output (Logger_Println "/go/src/log/log.go"
                            "http: TLS handshake error" initial)))
      = [(Stdout, pre ++ "http: TLS handshake error" ++ newline ++ newline)].
Proof.
  apply (Logger_leaves_blank_line "/go/src/log/log.go"
           "http: TLS handshake error" initial); levels.
Defined.

(** ** Verbosity *)

(** X14: verbosity is cumulative.  A threshold that lets severity L
    through lets every less verbose severity through as well, and
    raising the threshold never loses or alters a message: the call
    leaves the very same trace under any higher threshold. *)
Theorem verbosity_is_cumulative (L L' : severity) (st st' : state)
  (caller : frame) (msgFmt : string) (v : list any) :
  output (entry L caller msgFmt v st) <> [] ->
  (level_of L' <= level_of L ->
   output (entry L' caller msgFmt v st) <> []) /\
  (logLevel st <= logLevel st' -> Colours st' = Colours st ->
   output (entry L caller msgFmt v st') = output (entry L caller msgFmt v st)).
Proof.
  rewrite !entry_output. intros Hout.
  destruct (Z.ltb_spec (logLevel st) (level_of L)) as [Hlt | Hge];
    [now contradiction Hout |].
  split.
  - intros Hle.
    destruct (Z.ltb_spec (logLevel st) (level_of L')); [lia | discriminate].
  - intros Hle Hc. rewrite Hc.
    destruct (Z.ltb_spec (logLevel st') (level_of L)); [lia | reflexivity].
Qed.

Lemma verbosity_is_cumulative_witness :
  (level_of SevError <= level_of SevInfo ->
   output (entry SevError (mkFrame "main.go" 5) "tick" []
                 {| logLevel := 3; defaultLevel := 4; Colours := false |})
   <> []) /\
  (logLevel {| logLevel := 3; defaultLevel := 4; Colours := false |}
   <= logLevel initial ->
   Colours initial
   = Colours {| logLevel := 3; defaultLevel := 4; Colours := false |} ->
   output (entry SevInfo (mkFrame "main.go" 5) "tick" [] initial)
   = output (entry SevInfo (mkFrame "main.go" 5) "tick" []
                   {| logLevel := 3; defaultLevel := 4; Colours := false |})).
Proof.
  apply (verbosity_is_cumulative SevInfo SevError
           {| logLevel := 3; defaultLevel := 4; Colours := false |} initial
           (mkFrame "main.go" 5) "tick" []).
  discriminate.
Defined.

(** ** The two other copies of the package *)

Lemma Part001_entry_run (L : severity)
  (f : frame -> string -> list any -> Go unit) (caller : frame)
  (msgFmt : string) (v : list any) (st : state) :
  Part001.entry L = Some f ->
  f caller msgFmt v st
  = (tt, st,
     if logLevel st <? level_of L then []
     else emitted false L caller msgFmt v).
Proof.
  intros Hf.
  destruct L; simpl in Hf; inversion Hf; subst f; clear Hf;
    [ unfold Part001.Debug | unfold Part001.Info | unfold Part001.Warn
    | unfold Part001.Error ];
    unfold bind at 1, get; simpl level_of;
    match goal with |- context [logLevel st <? ?l] =>
      destruct (logLevel st <? l) end;
    try reflexivity;
    unfold Part001.print, bind; rewrite logged_by_length, cutoff_is_min;
    reflexivity.
Qed.

(** X15: the entry points of [part_001] and those of [log.go] are the
    same functions as long as colours are off: [Debug], [Info], [Warn]
    and [Error] return the same state and the same trace, byte for
    byte. *)
Theorem Part001_agrees_without_colours (L : severity)
  (f : frame -> string -> list any -> Go unit) (caller : frame)
  (msgFmt : string) (v : list any) (st : state) :
  Part001.entry L = Some f ->
  Colours st = false ->
  f caller msgFmt v st = entry L caller msgFmt v st.
Proof.
  intros Hf Hc.
  rewrite (Part001_entry_run L f caller msgFmt v st Hf), entry_run, Hc.
  reflexivity.
Qed.

Lemma Part001_agrees_without_colours_witness :
  Part001.Warn (mkFrame "cmd/main.go" 12) "retry %d" [AnyInt 2] initial
  = entry SevWarning (mkFrame "cmd/main.go" 12) "retry %d" [AnyInt 2] initial.
Proof.
  apply (Part001_agrees_without_colours SevWarning Part001.Warn
           (mkFrame "cmd/main.go" 12) "retry %d" [AnyInt 2] initial);
    reflexivity.
Defined.

(** The line of [part_000]: the layout with the seven-byte literal. *)
Lemma Part000_entry_run (L : severity)
  (f : frame -> string -> list any -> Go unit) (caller : frame)
  (msgFmt : string) (v : list any) (st : state) :
  Part000.entry L = Some f ->
  f caller msgFmt v st
  = (tt, st,
     if logLevel st <? level_of L then []
     else logged (Fmt.Sprintf_layout (tag_of L)
                    (Part000.marker ++ kept (file caller)) (line caller)
                    msgFmt) v
          :: match L with
             | SevError => [PrintStack]
             | _ => []
             end).
Proof.
  intros Hf.
  destruct L; simpl in Hf; inversion Hf; subst f; clear Hf;
    [ unfold Part000.Debug | unfold Part000.Info | unfold Part000.Warn
    | unfold Part000.Error ];
    unfold bind at 1, get; simpl level_of;
    match goal with |- context [logLevel st <? ?l] =>
      destruct (logLevel st <? l) end;
    try reflexivity;
    unfold Part000.print, bind; rewrite logged_by_length, cutoff_is_min;
    reflexivity.
Qed.

(** The literal of [part_000] is three runes of seven bytes. *)
Lemma rune_count_marker (s : string) :
  Utf8.RuneCountInString (Part000.marker ++ s)
  = S (S (S (Utf8.RuneCountInString s))).
Proof. reflexivity. Qed.

(** X16: [part_000] prints the line of [log.go] with another marker.
    With colours off and the gate passed, both lines are the tag, some
    blanks, a marker and the same rest (kept path, line number,
    template).  The marker of [part_000] is seven bytes that count as
    three runes where [log.go] has the three-byte ellipsis, one rune, so
    for a kept path of [n] runes [part_000] pads with [30 - (3 + n)]
    blanks and [log.go] with [30 - (1 + n)], both cut off at zero: two
    blanks less up to 27 runes, one less at 28, and from 29 runes on
    neither line is padded. *)
Theorem Part000_differs_by_marker (L : severity)
  (f : frame -> string -> list any -> Go unit) (caller : frame)
  (msgFmt : string) (v : list any) (st : state) :
  Part000.entry L = Some f ->
  Colours st = false ->
  logLevel st >= level_of L ->
  exists (rest : string) (blanks000 blanks : nat),
    lines (output (f caller msgFmt v st))
    = [logged ("[" ++ tag_of L ++ "] " ++ Fmt.writePadding blanks000
                   ++ Part000.marker ++ rest) v] /\
    lines (output (entry L caller msgFmt v st))
    = [logged ("[" ++ tag_of L ++ "] " ++ Fmt.writePadding blanks
                   ++ ellipsis ++ rest) v] /\
    blanks000
    = (30 - (3 + Utf8.RuneCountInString (kept (file caller))))%nat /\
    blanks = (30 - (1 + Utf8.RuneCountInString (kept (file caller))))%nat /\
    ((Utf8.RuneCountInString (kept (file caller)) <= 27)%nat ->
     blanks = (blanks000 + 2)%nat) /\
    (Utf8.RuneCountInString (kept (file caller)) = 28%nat ->
     blanks = 1%nat /\ blanks000 = 0%nat) /\
    ((Utf8.RuneCountInString (kept (file caller)) >= 29)%nat ->
     blanks = 0%nat /\ blanks000 = 0%nat).
Proof.
  intros Hf Hc Hl.
  exists (kept (file caller) ++ ":" ++ Fmt.verb_minus3d (line caller)
               ++ " " ++ msgFmt),
    (30 - (3 + Utf8.RuneCountInString (kept (file caller))))%nat,
    (30 - (1 + Utf8.RuneCountInString (kept (file caller))))%nat.
  rewrite (Part000_entry_run L f caller msgFmt v st Hf).
  rewrite (passing_lines L st caller msgFmt v Hl), Hc, line_of_tag_rest.
  unfold output. cbn [snd].
  destruct (Z.ltb_spec (logLevel st) (level_of L)); [lia |].
  split; [| split; [| repeat split; lia]].
  - replace (lines _)
      with [logged (Fmt.Sprintf_layout (tag_of L)
                      (Part000.marker ++ kept (file caller)) (line caller)
                      msgFmt) v]
      by (destruct L, v; reflexivity).
    unfold Fmt.Sprintf_layout, Fmt.verb_s, Fmt.verb_30s, Fmt.padString.
    rewrite rune_count_marker. simpl Nat.sub at 1 3. simpl Fmt.writePadding at 1 3.
    change (String "[" (tag_of L ++ ?x)) with ("[" ++ tag_of L ++ x).
    cbn [shown_tag]. rewrite !append_assoc. reflexivity.
  - unfold Fmt.verb_30s, Fmt.padString. rewrite rune_count_ellipsis.
    cbn [shown_tag]. rewrite !append_assoc. reflexivity.
Qed.

Lemma Part000_differs_by_marker_witness :
  exists (rest : string) (blanks000 blanks : nat),
    lines (output (Part000.Info
                     (mkFrame "/home/user/go/src/project/cmd/server/main.go" 42)
                     "ready" [] initial))
    = [logged ("[" ++ tag_of SevInfo ++ "] " ++ Fmt.writePadding blanks000
                   ++ Part000.marker ++ rest) []] /\
    lines (output (entry SevInfo
                     (mkFrame "/home/user/go/src/project/cmd/server/main.go" 42)
                     "ready" [] initial))
    = [logged ("[" ++ tag_of SevInfo ++ "] " ++ Fmt.writePadding blanks
                   ++ ellipsis ++ rest) []] /\
    blanks000
    = (30 - (3 + Utf8.RuneCountInString
                   (kept (file (mkFrame
                      "/home/user/go/src/project/cmd/server/main.go" 42)))))%nat
    /\
    blanks
    = (30 - (1 + Utf8.RuneCountInString
                   (kept (file (mkFrame
                      "/home/user/go/src/project/cmd/server/main.go" 42)))))%nat
    /\
    ((Utf8.RuneCountInString
        (kept (file (mkFrame
           "/home/user/go/src/project/cmd/server/main.go" 42))) <= 27)%nat ->
     blanks = (blanks000 + 2)%nat) /\
    (Utf8.RuneCountInString
       (kept (file (mkFrame
          "/home/user/go/src/project/cmd/server/main.go" 42))) = 28%nat ->
     blanks = 1%nat /\ blanks000 = 0%nat) /\
    ((Utf8.RuneCountInString
        (kept (file (mkFrame
           "/home/user/go/src/project/cmd/server/main.go" 42))) >= 29)%nat ->
     blanks = 0%nat /\ blanks000 = 0%nat).
Proof.
  apply (Part000_differs_by_marker SevInfo Part000.Info
           (mkFrame "/home/user/go/src/project/cmd/server/main.go" 42)
           "ready" [] initial).
  - reflexivity.
  - reflexivity.
  - levels.
Defined.

Lemma Part000_Write_run (srcfile : string) (p : list byte) (st : state) :
  Part000.Write srcfile p st
  = (Z.of_nat (List.length p), None, st,
     if defaultLevel st =? LevelDebug
     then output (Part000.Debug (mkFrame srcfile 105)
                    (string_of_list_byte p) [] st)
     else if defaultLevel st =? LevelInfo
     then output (Part000.Info (mkFrame srcfile 107)
                    (string_of_list_byte p) [] st)
     else if defaultLevel st =? LevelWarning
     then output (Part000.Warn (mkFrame srcfile 109)
                    (string_of_list_byte p) [] st)
     else if defaultLevel st =? LevelError
     then output (Part000.Error (mkFrame srcfile 111)
                    (string_of_list_byte p) [] st)
     else []).
Proof.
  unfold Part000.Write, bind at 1, get, bind at 1.
  repeat match goal with
         | |- context [defaultLevel st =? ?l] =>
           destruct (defaultLevel st =? l)
         end.
  - rewrite (Part000_entry_run SevDebug _ _ _ _ st eq_refl).
    unfold ret, output. simpl. rewrite app_nil_r. reflexivity.
  - rewrite (Part000_entry_run SevInfo _ _ _ _ st eq_refl).
    unfold ret, output. simpl. rewrite app_nil_r. reflexivity.
  - rewrite (Part000_entry_run SevWarning _ _ _ _ st eq_refl).
    unfold ret, output. simpl. rewrite app_nil_r. reflexivity.
  - rewrite (Part000_entry_run SevError _ _ _ _ st eq_refl).
    unfold ret, output. simpl. rewrite app_nil_r. reflexivity.
  - reflexivity.
Qed.

(** X17: the adapter of [part_000] and that of [log.go] agree on
    everything but the bytes of the line: for every buffer and state they
    return the same count and nil error, leave the same state and make
    the same calls on the same streams in the same order (a line, or a
    line and a stack dump, or nothing). *)
Theorem Part000_Write_agrees (srcfile srcfile' : string) (p : list byte)
  (st : state) :
  result (Part000.Write srcfile p st) = result (Write srcfile' p st) /\
  final (Part000.Write srcfile p st) = final (Write srcfile' p st) /\
  map stream_of (output (Part000.Write srcfile p st))
  = map stream_of (output (Write srcfile' p st)).
Proof.
  rewrite Part000_Write_run, Write_run.
  split; [reflexivity |]. split; [reflexivity |].
  unfold output at 1 6. cbn [snd].
  rewrite (Part000_entry_run SevDebug _ _ _ _ st eq_refl),
    (Part000_entry_run SevInfo _ _ _ _ st eq_refl),
    (Part000_entry_run SevWarning _ _ _ _ st eq_refl),
    (Part000_entry_run SevError _ _ _ _ st eq_refl),
    !entry_output.
  unfold output. cbn [snd].
  repeat match goal with
         | |- context [defaultLevel st =? ?l] =>
           destruct (defaultLevel st =? l)
         end;
    try reflexivity;
    match goal with
    | |- context [logLevel st <? ?l] => destruct (logLevel st <? l)
    end; reflexivity.
Qed.

Lemma Part001_SetLogLevel_final (srcfile : string) (level : Z) (st : state) :
  final (Part001.SetLogLevel srcfile level st)
  = if (level <? LevelNone) || (level >? LevelDebug) then st
    else {| logLevel := level; defaultLevel := defaultLevel st;
            Colours := Colours st |}.
Proof.
  unfold Part001.SetLogLevel.
  destruct ((level <? LevelNone) || (level >? LevelDebug)); [| reflexivity].
  now rewrite (Part001_entry_run SevError _ _ _ _ st eq_refl).
Qed.

Lemma Part000_SetLogLevel_final (srcfile : string) (level : Z) (st : state) :
  final (Part000.SetLogLevel srcfile level st)
  = if (level <? LevelNone) || (level >? LevelDebug) then st
    else {| logLevel := level; defaultLevel := defaultLevel st;
            Colours := Colours st |}.
Proof.
  unfold Part000.SetLogLevel.
  destruct ((level <? LevelNone) || (level >? LevelDebug)); [| reflexivity].
  now rewrite (Part000_entry_run SevError _ _ _ _ st eq_refl).
Qed.

(** X18: [SetLogLevel] of [log.go] extends that of the two other copies
    by one level.  For every level other than 5 the three functions leave
    the same configuration; given 5 the copies keep the threshold they
    had, and [log.go] stores it. *)
Theorem SetLogLevel_extends_copies (srcfile : string) (level : Z)
  (st : state) :
  (level <> LevelTrace ->
   final (Part001.SetLogLevel srcfile level st)
   = final (SetLogLevel srcfile level st) /\
   final (Part000.SetLogLevel srcfile level st)
   = final (SetLogLevel srcfile level st)) /\
  final (Part001.SetLogLevel srcfile LevelTrace st) = st /\
  final (Part000.SetLogLevel srcfile LevelTrace st) = st /\
  logLevel (final (SetLogLevel srcfile LevelTrace st)) = LevelTrace.
Proof.
  rewrite !Part001_SetLogLevel_final, !Part000_SetLogLevel_final,
    !SetLogLevel_final.
  split; [| repeat split; reflexivity].
  intros Hne.
  assert (Htest : (level <? LevelNone) || (level >? LevelDebug)
                  = (level <? LevelNone) || (level >? LevelTrace)).
  { destruct (Z.ltb_spec level LevelNone); [reflexivity |].
    simpl. destruct (Z.gtb_spec level LevelDebug),
             (Z.gtb_spec level LevelTrace); try reflexivity; levels. }
  rewrite Htest. split; reflexivity.
Qed.
